(** * Food delivery back office: gateway, user service, order service

    A shallow embedding of the three Express services and of the part of
    the JavaScript runtime they rely on (JSON values, truthiness, template
    strings, [JSON.stringify] and [JSON.parse]), followed by the properties
    of the services.

    Conventions of the model.
    - A JavaScript string is a Rocq [string], read as its UTF-8 bytes.
    - A JavaScript number is an integer ([Z]); fractions, exponents, NaN
      and infinities are outside the model.
    - A JavaScript object is an association list in property order; a
      property that is absent reads as [None] (JavaScript's undefined).
    - The embedded SQL engine keeps in a cell the value bound to it and
      hands it back unchanged; SQL NULL reads back as [JNull]. It enforces
      the NOT NULL and UNIQUE constraints the CREATE TABLE statements
      declare. *)

From Stdlib Require Import Bool Arith ZArith List Ascii String Lia.
From Stdlib Require Import Decimal DecimalFacts DecimalPos DecimalZ DecimalString.
From Stdlib Require Import Sorted Permutation.
Import ListNotations.

Local Open Scope string_scope.
Local Open Scope Z_scope.

(* ================================================================== *)
(** * JSON values and the runtime operations the services use *)

Module JSON.

#[local] Unset Elimination Schemes.

Inductive json : Type :=
| JNull
| JBool (b : bool)
| JNum (n : Z)
| JStr (s : string)
| JArr (l : list json)
| JObj (m : list (string * json)).

#[local] Set Elimination Schemes.

(** [!x] is [negb (truthy x)]; a destructured property that is missing is
    [None]. *)
Definition truthy (v : json) : bool :=
  match v with
  | JNull => false
  | JBool b => b
  | JNum n => negb (n =? 0)
  | JStr s => negb (s =? "")%string
  | JArr _ => true
  | JObj _ => true
  end.

Definition truthy_opt (o : option json) : bool :=
  match o with
  | Some v => truthy v
  | None => false
  end.

(** Property read [o.k] on an object literal. *)
Fixpoint assoc (k : string) (m : list (string * json)) : option json :=
  match m with
  | [] => None
  | (k', v) :: m' => if (k' =? k)%string then Some v else assoc k m'
  end.

Definition get (k : string) (v : json) : option json :=
  match v with
  | JObj m => assoc k m
  | _ => None
  end.

(** ** Decimal numerals *)

Definition string_of_Z (n : Z) : string := NilEmpty.string_of_int (Z.to_int n).

Definition is_digit (c : ascii) : bool :=
  ((48 <=? nat_of_ascii c) && (nat_of_ascii c <=? 57))%nat.

Fixpoint span_digits (s : string) : string * string :=
  match s with
  | EmptyString => (EmptyString, EmptyString)
  | String c r =>
      if is_digit c
      then let (d, t) := span_digits r in (String c d, t)
      else (EmptyString, s)
  end.

(** ** Template strings: [`${v}`] *)

Fixpoint to_string (v : json) : string :=
  match v with
  | JNull => "null"
  | JBool true => "true"
  | JBool false => "false"
  | JNum n => string_of_Z n
  | JStr s => s
  | JArr l =>
      String.concat ","
        (map (fun x => match x with JNull => "" | _ => to_string x end) l)
  | JObj _ => "[object Object]"
  end.

(** ** JSON.stringify *)

Definition hex_digit (n : nat) : ascii :=
  ascii_of_nat (if (n <? 10)%nat then 48 + n else 87 + n).

Definition dquote : ascii := ascii_of_nat 34.

Definition quote_char (c : ascii) : string :=
  let n := nat_of_ascii c in
  if (n =? 34)%nat then String "\" (String dquote "")
  else if (n =? 92)%nat then "\\"
  else if (n =? 8)%nat then "\b"
  else if (n =? 12)%nat then "\f"
  else if (n =? 10)%nat then "\n"
  else if (n =? 13)%nat then "\r"
  else if (n =? 9)%nat then "\t"
  else if (n <? 32)%nat then
    "\u00" ++ String (hex_digit (n / 16)) (String (hex_digit (n mod 16)) "")
  else String c "".

Fixpoint quote_chars (s : string) : string :=
  match s with
  | EmptyString => EmptyString
  | String c r => quote_char c ++ quote_chars r
  end.

Definition quote (s : string) : string :=
  String dquote (quote_chars s ++ String dquote "").

Fixpoint stringify (v : json) : string :=
  match v with
  | JNull => "null"
  | JBool true => "true"
  | JBool false => "false"
  | JNum n => string_of_Z n
  | JStr s => quote s
  | JArr l => "[" ++ String.concat "," (map stringify l) ++ "]"
  | JObj m =>
      "{" ++ String.concat ","
               (map (fun kv => quote (fst kv) ++ ":" ++ stringify (snd kv)) m)
          ++ "}"
  end.

(** ** JSON.parse

    A recursive-descent reader of the JSON grammar. [None] stands for the
    SyntaxError the runtime throws. The fuel bounds the nesting of the
    recursion; [parse] supplies more than the input can use. Numerals are
    integers, as everywhere in the model, and the members of an object are
    kept in the order they are read (a JavaScript object has each key
    once, and so has every text [stringify] writes for one). *)

Definition is_ws (c : ascii) : bool :=
  let n := nat_of_ascii c in
  ((n =? 32) || (n =? 9) || (n =? 10) || (n =? 13))%nat.

Fixpoint skip_ws (s : string) : string :=
  match s with
  | EmptyString => EmptyString
  | String c r => if is_ws c then skip_ws r else s
  end.

Definition hex_value (c : ascii) : option N :=
  let n := nat_of_ascii c in
  if ((48 <=? n) && (n <=? 57))%nat then Some (N.of_nat (n - 48))
  else if ((97 <=? n) && (n <=? 102))%nat then Some (N.of_nat (n - 87))
  else if ((65 <=? n) && (n <=? 70))%nat then Some (N.of_nat (n - 55))
  else None.

Definition hex4 (a b c d : ascii) : option N :=
  match hex_value a, hex_value b, hex_value c, hex_value d with
  | Some x, Some y, Some z, Some w => Some (((x * 16 + y) * 16 + z) * 16 + w)%N
  | _, _, _, _ => None
  end.

Definition byte (n : N) : ascii := ascii_of_N n.

(** UTF-8 bytes of a code point. *)
Definition utf8 (n : N) : string :=
  (if n <? 128 then String (byte n) ""
   else if n <? 2048 then
     String (byte (192 + n / 64)) (String (byte (128 + n mod 64)) "")
   else if n <? 65536 then
     String (byte (224 + n / 4096))
       (String (byte (128 + (n / 64) mod 64))
          (String (byte (128 + n mod 64)) ""))
   else
     String (byte (240 + n / 262144))
       (String (byte (128 + (n / 4096) mod 64))
          (String (byte (128 + (n / 64) mod 64))
             (String (byte (128 + n mod 64)) ""))))%N.

Definition is_high_surrogate (n : N) : bool := ((55296 <=? n) && (n <? 56320))%N.
Definition is_low_surrogate (n : N) : bool := ((56320 <=? n) && (n <? 57344))%N.

Definition prepend (p : string) (o : option (string * string))
  : option (string * string) :=
  match o with
  | Some (s, r) => Some (p ++ s, r)
  | None => None
  end.

(** The characters of a string literal, after its opening quote, up to and
    including the closing quote. *)
Fixpoint parse_chars (s : string) : option (string * string) :=
  match s with
  | EmptyString => None
  | String c r =>
      if (c =? dquote)%char then Some (EmptyString, r)
      else if (c =? "\")%char then
        match r with
        | EmptyString => None
        | String e r1 =>
            if (e =? dquote)%char then prepend (String dquote "") (parse_chars r1)
            else if (e =? "\")%char then prepend "\" (parse_chars r1)
            else if (e =? "/")%char then prepend "/" (parse_chars r1)
            else if (e =? "b")%char then
              prepend (String (ascii_of_nat 8) "") (parse_chars r1)
            else if (e =? "f")%char then
              prepend (String (ascii_of_nat 12) "") (parse_chars r1)
            else if (e =? "n")%char then
              prepend (String (ascii_of_nat 10) "") (parse_chars r1)
            else if (e =? "r")%char then
              prepend (String (ascii_of_nat 13) "") (parse_chars r1)
            else if (e =? "t")%char then
              prepend (String (ascii_of_nat 9) "") (parse_chars r1)
            else if (e =? "u")%char then
              match r1 with
              | String h1 (String h2 (String h3 (String h4 r2))) =>
                  match hex4 h1 h2 h3 h4 with
                  | None => None
                  | Some u =>
                      if is_high_surrogate u then
                        match r2 with
                        | String b1 (String b2
                            (String l1 (String l2 (String l3 (String l4 r3))))) =>
                            match hex4 l1 l2 l3 l4 with
                            | Some lo =>
                                if (is_low_surrogate lo
                                    && (b1 =? "\")%char && (b2 =? "u")%char)%bool
                                then
                                  prepend
                                    (utf8 (65536 + (u - 55296) * 1024
                                           + (lo - 56320))%N)
                                    (parse_chars r3)
                                else prepend (utf8 u) (parse_chars r2)
                            | None => prepend (utf8 u) (parse_chars r2)
                            end
                        | _ => prepend (utf8 u) (parse_chars r2)
                        end
                      else prepend (utf8 u) (parse_chars r2)
                  end
              | _ => None
              end
            else None
        end
      else if (nat_of_ascii c <? 32)%nat then None
      else prepend (String c "") (parse_chars r)
  end.

(** An integer numeral: an optional minus sign, then digits without a
    superfluous leading zero. *)
Definition parse_number (s : string) : option (Z * string) :=
  let (neg, s1) :=
    match s with
    | String c r => if (c =? "-")%char then (true, r) else (false, s)
    | EmptyString => (false, s)
    end in
  let (ds, rest) := span_digits s1 in
  match ds with
  | EmptyString => None
  | String d ds' =>
      if ((d =? "0")%char && negb (ds' =? "")%string)%bool then None
      else
        match rest with
        | String c _ =>
            if ((c =? ".")%char || (c =? "e")%char || (c =? "E")%char)%bool
            then None
            else
              match NilEmpty.uint_of_string ds with
              | Some u => Some (if neg then - Z.of_uint u else Z.of_uint u, rest)
              | None => None
              end
        | EmptyString =>
            match NilEmpty.uint_of_string ds with
            | Some u => Some (if neg then - Z.of_uint u else Z.of_uint u, rest)
            | None => None
            end
        end
  end.

Fixpoint strip_prefix (p s : string) : option string :=
  match p with
  | EmptyString => Some s
  | String a p' =>
      match s with
      | String b s' => if (a =? b)%char then strip_prefix p' s' else None
      | EmptyString => None
      end
  end.

Definition expect (kw : string) (v : json) (s : string)
  : option (json * string) :=
  match strip_prefix kw s with
  | Some r => Some (v, r)
  | None => None
  end.

Fixpoint parse_value (fuel : nat) (s : string) {struct fuel}
  : option (json * string) :=
  match fuel with
  | O => None
  | S fuel' =>
      match skip_ws s with
      | EmptyString => None
      | String c r =>
          if (c =? "n")%char then expect "ull" JNull r
          else if (c =? "t")%char then expect "rue" (JBool true) r
          else if (c =? "f")%char then expect "alse" (JBool false) r
          else if (c =? dquote)%char then
            match parse_chars r with
            | Some (str, r') => Some (JStr str, r')
            | None => None
            end
          else if (c =? "[")%char then
            match skip_ws r with
            | String c' r' =>
                if (c' =? "]")%char then Some (JArr [], r')
                else
                  match parse_elements fuel' r with
                  | Some (l, r'') => Some (JArr l, r'')
                  | None => None
                  end
            | EmptyString => None
            end
          else if (c =? "{")%char then
            match skip_ws r with
            | String c' r' =>
                if (c' =? "}")%char then Some (JObj [], r')
                else
                  match parse_members fuel' r with
                  | Some (m, r'') => Some (JObj m, r'')
                  | None => None
                  end
            | EmptyString => None
            end
          else
            match parse_number (String c r) with
            | Some (n, r') => Some (JNum n, r')
            | None => None
            end
      end
  end

with parse_elements (fuel : nat) (s : string) {struct fuel}
  : option (list json * string) :=
  match fuel with
  | O => None
  | S fuel' =>
      match parse_value fuel' s with
      | None => None
      | Some (v, r) =>
          match skip_ws r with
          | String c r' =>
              if (c =? ",")%char then
                match parse_elements fuel' r' with
                | Some (l, r'') => Some (v :: l, r'')
                | None => None
                end
              else if (c =? "]")%char then Some ([v], r')
              else None
          | EmptyString => None
          end
      end
  end

with parse_members (fuel : nat) (s : string) {struct fuel}
  : option (list (string * json) * string) :=
  match fuel with
  | O => None
  | S fuel' =>
      match skip_ws s with
      | String q r0 =>
          if (q =? dquote)%char then
            match parse_chars r0 with
            | None => None
            | Some (k, r1) =>
                match skip_ws r1 with
                | String c1 r2 =>
                    if (c1 =? ":")%char then
                      match parse_value fuel' r2 with
                      | None => None
                      | Some (v, r3) =>
                          match skip_ws r3 with
                          | String c r' =>
                              if (c =? ",")%char then
                                match parse_members fuel' r' with
                                | Some (m, r'') => Some ((k, v) :: m, r'')
                                | None => None
                                end
                              else if (c =? "}")%char then Some ([(k, v)], r')
                              else None
                          | EmptyString => None
                          end
                      end
                    else None
                | EmptyString => None
                end
            end
          else None
      | EmptyString => None
      end
  end.

Definition parse (s : string) : option json :=
  match parse_value (S (String.length s)) s with
  | Some (v, r) =>
      match skip_ws r with
      | EmptyString => Some v
      | String _ _ => None
      end
  | None => None
  end.

(** What may come after a value inside a document: nothing, or one of the
    separators. *)
Definition follow (rest : string) : bool :=
  match rest with
  | EmptyString => true
  | String c _ => ((c =? ",")%char || (c =? "]")%char || (c =? "}")%char)%bool
  end.

(** A bound on the recursion depth [parse_value] needs to read a value
    back. *)
Fixpoint size (v : json) : nat :=
  match v with
  | JArr l => S (list_sum (map (fun x => S (size x)) l))
  | JObj m => S (list_sum (map (fun kv => S (size (snd kv))) m))
  | _ => 1%nat
  end.

(** Characters on which [parse_value] reads a numeral. *)
Definition numeric_head (c : ascii) : bool :=
  (is_digit c || (c =? "-")%char)%bool.

(** Object literals: [{...m, k: v}] keeps the place of a key that is
    already there and appends a new one. *)
Fixpoint set (k : string) (v : json) (m : list (string * json))
  : list (string * json) :=
  match m with
  | [] => [(k, v)]
  | (k', v') :: m' =>
      if (k' =? k)%string then (k, v) :: m' else (k', v') :: set k v m'
  end.

Fixpoint remove (k : string) (m : list (string * json))
  : list (string * json) :=
  match m with
  | [] => []
  | (k', v') :: m' =>
      if (k' =? k)%string then remove k m' else (k', v') :: remove k m'
  end.

(** A property whose value is undefined is dropped when the object is sent
    as JSON. *)
Definition set_opt (k : string) (o : option json) (m : list (string * json))
  : list (string * json) :=
  match o with
  | Some v => set k v m
  | None => remove k m
  end.

Fixpoint eqb (a b : json) {struct a} : bool :=
  match a, b with
  | JNull, JNull => true
  | JBool x, JBool y => Bool.eqb x y
  | JNum x, JNum y => (x =? y)%Z
  | JStr x, JStr y => (x =? y)%string
  | JArr x, JArr y =>
      (fix all (x y : list json) {struct x} : bool :=
         match x, y with
         | [], [] => true
         | a' :: x', b' :: y' => eqb a' b' && all x' y'
         | _, _ => false
         end) x y
  | JObj x, JObj y =>
      (fix all (x y : list (string * json)) {struct x} : bool :=
         match x, y with
         | [], [] => true
         | (k, a') :: x', (k', b') :: y' =>
             (k =? k')%string && eqb a' b' && all x' y'
         | _, _ => false
         end) x y
  | _, _ => false
  end.

(** The integer a text denotes, when it is a decimal numeral; this is how
    a text parameter is compared with an INTEGER column. Other spellings
    of a number (a plus sign, blanks, a fraction) are not read. *)
Definition int_of_text (s : string) : option Z :=
  match s with
  | EmptyString => None
  | String c r =>
      if (c =? "-")%char then
        match r with
        | EmptyString => None
        | String _ _ =>
            option_map (fun u => - Z.of_uint u) (NilEmpty.uint_of_string r)
        end
      else option_map Z.of_uint (NilEmpty.uint_of_string s)
  end.

(** One member of an encoded object. *)
Definition member (kv : string * json) : string :=
  (quote (fst kv) ++ ":" ++ stringify (snd kv))%string.

Definition elements_size (l : list json) : nat :=
  list_sum (map (fun x => S (size x)) l).

Definition members_size (m : list (string * json)) : nat :=
  list_sum (map (fun kv => S (size (snd kv))) m).

(** Induction over values that reaches inside arrays and objects. *)
Section json_induction.
Variable P : json -> Prop.
Hypothesis Hnull : P JNull.
Hypothesis Hbool : forall b, P (JBool b).
Hypothesis Hnum : forall n, P (JNum n).
Hypothesis Hstr : forall s, P (JStr s).
Hypothesis Harr : forall l, Forall P l -> P (JArr l).
Hypothesis Hobj : forall m, Forall (fun kv => P (snd kv)) m -> P (JObj m).

Fixpoint json_nested_ind (v : json) : P v :=
  match v with
  | JNull => Hnull
  | JBool b => Hbool b
  | JNum n => Hnum n
  | JStr s => Hstr s
  | JArr l =>
      Harr l
        ((fix all (l : list json) : Forall P l :=
            match l with
            | [] => Forall_nil P
            | x :: l' => Forall_cons x (json_nested_ind x) (all l')
            end) l)
  | JObj m =>
      Hobj m
        ((fix all (m : list (string * json))
            : Forall (fun kv => P (snd kv)) m :=
            match m with
            | [] => Forall_nil _
            | kv :: m' =>
                Forall_cons (P := fun kv => P (snd kv)) kv
                  (json_nested_ind (snd kv)) (all m')
            end) m)
  end.
End json_induction.

End JSON.

(* ================================================================== *)
(** * HTTP exchanges *)

Module Http.
Import JSON.

Record response : Type := mk_response { status : Z; body : json }.

(** What comes back from a server: a response, or nothing (connection
    refused, reset, ...). *)
Inductive reply : Type :=
| Reply (r : response)
| NoReply (message : string).

(** The error axios throws: [error.response] is there when the server did
    answer. *)
Record axios_error : Type :=
  mk_error { error_response : option response; error_message : string }.

Definition validateStatus (st : Z) : bool := (200 <=? st) && (st <? 300).

(** An axios call resolves on a 2xx answer and throws otherwise. *)
Definition axios (r : reply) : response + axios_error :=
  match r with
  | Reply resp =>
      if validateStatus (status resp) then inl resp
      else inr (mk_error (Some resp)
                  ("Request failed with status code "
                   ++ string_of_Z (status resp)))
  | NoReply m => inr (mk_error None m)
  end.

(** The three shapes of body the services send. *)
Definition success_data (data : option json) : json :=
  JObj (set_opt "data" data [("success", JBool true)]).

Definition success_message (message : string) : json :=
  JObj [("success", JBool true); ("message", JStr message)].

Definition failure (message : string) : json :=
  JObj [("success", JBool false); ("message", JStr message)].

Definition failure_error (message error : string) : json :=
  JObj [("success", JBool false); ("message", JStr message);
        ("error", JStr error)].

End Http.

(* ================================================================== *)
(** * The embedded SQL engine, as far as the services use it *)

Module Sql.
Import JSON.

Inductive db_result (A : Type) : Type :=
| db_err (message : string)
| db_ok (a : A).
Arguments db_err {A} message.
Arguments db_ok {A} a.

(** Failures of the engine itself (I/O error, busy, ...), one entry per
    statement of a run; a run that outlives the list sees no failure. *)
Definition faults : Type := list (option string).

Definition next_fault (fs : faults) : option string :=
  match fs with
  | Some e :: _ => Some e
  | _ => None
  end.

(** An undefined parameter is left unbound, which the engine reads as
    NULL. *)
Definition bind (o : option json) : json :=
  match o with
  | Some v => v
  | None => JNull
  end.

Definition is_null (v : json) : bool :=
  match v with
  | JNull => true
  | _ => false
  end.

(** [WHERE id = ?] on an INTEGER PRIMARY KEY. *)
Definition id_matches (p : json) (id : Z) : bool :=
  match p with
  | JNum n => n =? id
  | JStr s =>
      match int_of_text s with
      | Some n => n =? id
      | None => false
      end
  | _ => false
  end.

(** [WHERE user_id = ?] with a text parameter. *)
Definition cell_matches (cell : json) (p : string) : bool :=
  match cell with
  | JNum n =>
      match int_of_text p with
      | Some m => n =? m
      | None => false
      end
  | JStr s => (s =? p)%string
  | _ => false
  end.

(** AUTOINCREMENT: one more than the largest id ever used. *)
Definition fresh_id (ids : list Z) (seq : Z) : Z :=
  1 + fold_right Z.max seq ids.

Definition not_null_failed (table column : string) : string :=
  "SQLITE_CONSTRAINT: NOT NULL constraint failed: " ++ table ++ "." ++ column.

Definition unique_failed (table column : string) : string :=
  "SQLITE_CONSTRAINT: UNIQUE constraint failed: " ++ table ++ "." ++ column.

(** The first NOT NULL column that would receive NULL. *)
Fixpoint first_null (cols : list (string * json)) : option string :=
  match cols with
  | [] => None
  | (c, v) :: cols' => if is_null v then Some c else first_null cols'
  end.

End Sql.

(* ================================================================== *)
(** * User Service (user-service/server.js) *)

Module UserService.
Import JSON Http Sql.

(** CREATE TABLE users: id INTEGER PRIMARY KEY AUTOINCREMENT, name, email,
    phone and address TEXT NOT NULL, email UNIQUE, created_at DEFAULT
    CURRENT_TIMESTAMP. *)
Record user : Type := mk_user {
  id : Z;
  name : json;
  email : json;
  phone : json;
  address : json;
  created_at : string
}.

Record db : Type := mk_db {
  rows : list user;   (* in insertion order *)
  seq : Z;            (* largest id handed out so far *)
  clock : string      (* CURRENT_TIMESTAMP *)
}.

(** The object the driver hands to a callback for a row of SELECT *. *)
Definition row_object (u : user) : json :=
  JObj [("id", JNum (id u)); ("name", name u); ("email", email u);
        ("phone", phone u); ("address", address u);
        ("created_at", JStr (created_at u))].

Definition seeded (now : string) : db :=
  mk_db
    [mk_user 1 (JStr "John Doe") (JStr "john@example.com")
       (JStr "081234567890") (JStr "Jl. Sudirman No. 1, Jakarta") now;
     mk_user 2 (JStr "Jane Smith") (JStr "jane@example.com")
       (JStr "081234567891") (JStr "Jl. Thamrin No. 2, Jakarta") now]
    2 now.

(** ** Statements *)

(** SELECT * FROM users ORDER BY id *)
Fixpoint insert_asc (u : user) (l : list user) : list user :=
  match l with
  | [] => [u]
  | v :: l' => if id u <=? id v then u :: l else v :: insert_asc u l'
  end.

Definition db_all (d : db) (fs : faults) : db_result (list user) :=
  match next_fault fs with
  | Some e => db_err e
  | None => db_ok (fold_right insert_asc [] (rows d))
  end.

(** SELECT * FROM users WHERE id = ? *)
Definition db_get (d : db) (fs : faults) (p : json) : db_result (option user) :=
  match next_fault fs with
  | Some e => db_err e
  | None => db_ok (find (fun u => id_matches p (id u)) (rows d))
  end.

Definition email_taken (e : json) (l : list user) : bool :=
  existsb (fun u => JSON.eqb (email u) e) l.

(** INSERT INTO users (name, email, phone, address) VALUES (?, ?, ?, ?);
    the result is [this.lastID]. *)
Definition db_run_insert (d : db) (fs : faults) (n e p a : option json)
  : db_result Z * db :=
  match next_fault fs with
  | Some err => (db_err err, d)
  | None =>
      match first_null [("name", bind n); ("email", bind e);
                        ("phone", bind p); ("address", bind a)] with
      | Some c => (db_err (not_null_failed "users" c), d)
      | None =>
          if email_taken (bind e) (rows d)
          then (db_err (unique_failed "users" "email"), d)
          else
            let i := fresh_id (map id (rows d)) (seq d) in
            (db_ok i,
             mk_db (rows d ++ [mk_user i (bind n) (bind e) (bind p) (bind a)
                                 (clock d)])
                   i (clock d))
      end
  end.

(** UPDATE users SET name = ?, email = ?, phone = ?, address = ?
    WHERE id = ?; the result is [this.changes]. *)
Definition db_run_update (d : db) (fs : faults) (n e p a : option json)
           (i : json) : db_result nat * db :=
  match next_fault fs with
  | Some err => (db_err err, d)
  | None =>
      let hit := fun u => id_matches i (id u) in
      match filter hit (rows d) with
      | [] => (db_ok O, d)
      | matched =>
          match first_null [("name", bind n); ("email", bind e);
                            ("phone", bind p); ("address", bind a)] with
          | Some c => (db_err (not_null_failed "users" c), d)
          | None =>
              if email_taken (bind e)
                   (filter (fun u => negb (hit u)) (rows d))
                 || (1 <? List.length matched)%nat
              then (db_err (unique_failed "users" "email"), d)
              else
                (db_ok (List.length matched),
                 mk_db
                   (map (fun u =>
                           if hit u
                           then mk_user (id u) (bind n) (bind e) (bind p)
                                  (bind a) (created_at u)
                           else u) (rows d))
                   (seq d) (clock d))
          end
      end
  end.

(** DELETE FROM users WHERE id = ? *)
Definition db_run_delete (d : db) (fs : faults) (i : json)
  : db_result nat * db :=
  match next_fault fs with
  | Some err => (db_err err, d)
  | None =>
      let hit := fun u => id_matches i (id u) in
      (db_ok (List.length (filter hit (rows d))),
       mk_db (filter (fun u => negb (hit u)) (rows d)) (seq d) (clock d))
  end.

(** ** Routes *)

(** app.get('/users') *)
Definition get_users (d : db) (fs : faults) : response * db :=
  match db_all d fs with
  | db_err e => (mk_response 500 (failure_error "Error fetching users" e), d)
  | db_ok l =>
      (mk_response 200 (success_data (Some (JArr (map row_object l)))), d)
  end.

(** app.get('/users/:id') *)
Definition get_users_id (d : db) (fs : faults) (param : string)
  : response * db :=
  match db_get d fs (JStr param) with
  | db_err e => (mk_response 500 (failure_error "Error fetching user" e), d)
  | db_ok None => (mk_response 404 (failure "User tidak ditemukan"), d)
  | db_ok (Some row) =>
      (mk_response 200 (success_data (Some (row_object row))), d)
  end.

(** app.post('/users') *)
Definition post_users (d : db) (fs : faults) (body : json) : response * db :=
  let name := get "name" body in
  let email := get "email" body in
  let phone := get "phone" body in
  let address := get "address" body in
  if negb (truthy_opt name) || negb (truthy_opt email)
     || negb (truthy_opt phone) || negb (truthy_opt address)
  then (mk_response 400 (failure "Semua field wajib diisi"), d)
  else
    match db_run_insert d fs name email phone address with
    | (db_err e, d') =>
        (mk_response 500 (failure_error "Error creating user" e), d')
    | (db_ok lastID, d') =>
        match db_get d' (tl fs) (JNum lastID) with
        | db_err e =>
            (mk_response 500 (failure_error "Error fetching created user" e),
             d')
        | db_ok row =>
            (mk_response 201 (success_data (option_map row_object row)), d')
        end
    end.

(** app.put('/users/:id') *)
Definition put_users_id (d : db) (fs : faults) (param : string) (body : json)
  : response * db :=
  let name := get "name" body in
  let email := get "email" body in
  let phone := get "phone" body in
  let address := get "address" body in
  match db_run_update d fs name email phone address (JStr param) with
  | (db_err e, d') =>
      (mk_response 500 (failure_error "Error updating user" e), d')
  | (db_ok changes, d') =>
      if (changes =? 0)%nat
      then (mk_response 404 (failure "User tidak ditemukan"), d')
      else
        match db_get d' (tl fs) (JStr param) with
        | db_err e =>
            (mk_response 500 (failure_error "Error fetching updated user" e),
             d')
        | db_ok row =>
            (mk_response 200 (success_data (option_map row_object row)), d')
        end
  end.

(** app.delete('/users/:id') *)
Definition delete_users_id (d : db) (fs : faults) (param : string)
  : response * db :=
  match db_run_delete d fs (JStr param) with
  | (db_err e, d') =>
      (mk_response 500 (failure_error "Error deleting user" e), d')
  | (db_ok changes, d') =>
      if (changes =? 0)%nat
      then (mk_response 404 (failure "User tidak ditemukan"), d')
      else (mk_response 200 (success_message "User berhasil dihapus"), d')
  end.

(** A row after all four mutable columns are assigned from a body. *)
Definition overwrite (body : json) (u : user) : user :=
  mk_user (id u) (bind (get "name" body)) (bind (get "email" body))
    (bind (get "phone" body)) (bind (get "address" body)) (created_at u).


(** ** The service as seen over HTTP by a GET *)

(** A path parameter is one segment of the path. *)
Fixpoint is_segment_tail (s : string) : bool :=
  match s with
  | EmptyString => true
  | String c r =>
      negb ((c =? "/")%char || (c =? "?")%char || (c =? "#")%char)
      && is_segment_tail r
  end.

Definition is_segment (s : string) : bool :=
  negb (s =? "")%string && is_segment_tail s.

(** GET [url] against a User Service that listens at [base] and holds [d]:
    only the two GET routes are known; anything else has no route. *)
Definition http_get (base : string) (d : db) (fs : faults) (url : string)
  : reply :=
  match strip_prefix (base ++ "/users") url with
  | None => NoReply "connect ECONNREFUSED"
  | Some EmptyString => Reply (fst (get_users d fs))
  | Some (String c p) =>
      if ((c =? "/")%char && is_segment p)%bool
      then Reply (fst (get_users_id d fs p))
      else Reply (mk_response 404 (JStr "Cannot GET"))
  end.

(** ** The routes of the service *)

Inductive request : Type :=
| GET_users
| GET_users_id (param : string)
| POST_users (body : json)
| PUT_users_id (param : string) (body : json)
| DELETE_users_id (param : string).

Definition app (d : db) (fs : faults) (req : request) : response * db :=
  match req with
  | GET_users => get_users d fs
  | GET_users_id param => get_users_id d fs param
  | POST_users body => post_users d fs body
  | PUT_users_id param body => put_users_id d fs param body
  | DELETE_users_id param => delete_users_id d fs param
  end.

(** ** Start-up: initializeDatabase and seedInitialData *)

(** A database file that did not exist yet. *)
Definition empty (now : string) : db := mk_db [] 0 now.

Definition initialUsers : list (json * json * json * json) :=
  [(JStr "John Doe", JStr "john@example.com", JStr "081234567890",
    JStr "Jl. Sudirman No. 1, Jakarta");
   (JStr "Jane Smith", JStr "jane@example.com", JStr "081234567891",
    JStr "Jl. Thamrin No. 2, Jakarta")].

(** [stmt.run([...])] without a callback: an error is dropped. *)
Definition stmt_run (d : db) (fs : faults) (u : json * json * json * json)
  : db :=
  let '(n, e, p, a) := u in
  snd (db_run_insert d fs (Some n) (Some e) (Some p) (Some a)).

(** [initialUsers.forEach(user => stmt.run(...))] *)
Fixpoint run_each (d : db) (fs : faults)
         (l : list (json * json * json * json)) : db :=
  match l with
  | [] => d
  | u :: l' => run_each (stmt_run d fs u) (tl fs) l'
  end.

(** SELECT COUNT( * ) first; the rows go in only when the count is 0. *)
Definition seedInitialData (d : db) (fs : faults) : db :=
  match next_fault fs with
  | Some _ => d
  | None =>
      if (List.length (rows d) =? 0)%nat
      then run_each d (tl fs) initialUsers
      else d
  end.

(** CREATE TABLE IF NOT EXISTS, then the seeding. *)
Definition initializeDatabase (d : db) (fs : faults) : db :=
  match next_fault fs with
  | Some _ => d
  | None => seedInitialData d (tl fs)
  end.

(** The four fields POST /users requires. *)
Definition user_fields : list string := ["name"; "email"; "phone"; "address"].

(** The row INSERT makes of four bound values. *)
Definition created (d : db) (n e p a : json) : user :=
  mk_user (fresh_id (map id (rows d)) (seq d)) n e p a (clock d).

(** No two rows have the same email. *)
Definition emails_unique (d : db) : Prop := NoDup (map email (rows d)).

End UserService.

(* ================================================================== *)
(** * Order Service (order-service/server.js) *)

Module OrderService.
Import JSON Http Sql.

(** CREATE TABLE orders: id INTEGER PRIMARY KEY AUTOINCREMENT, user_id
    INTEGER NOT NULL, restaurant_name TEXT NOT NULL, items TEXT NOT NULL,
    total_price INTEGER NOT NULL, status TEXT DEFAULT 'pending', created_at
    DEFAULT CURRENT_TIMESTAMP. *)
Record order : Type := mk_order {
  id : Z;
  user_id : json;
  restaurant_name : json;
  items : json;
  total_price : json;
  status : json;
  created_at : string
}.

Record db : Type := mk_db {
  rows : list order;  (* in insertion order *)
  seq : Z;            (* largest id handed out so far *)
  clock : string      (* CURRENT_TIMESTAMP *)
}.

(** The object the driver hands to a callback for a row of SELECT *. *)
Definition row_object (r : order) : list (string * json) :=
  [("id", JNum (id r)); ("user_id", user_id r);
   ("restaurant_name", restaurant_name r); ("items", items r);
   ("total_price", total_price r); ("status", status r);
   ("created_at", JStr (created_at r))].

Definition seeded (now : string) : db :=
  mk_db
    [mk_order 1 (JNum 1) (JStr "Nasi Goreng Kambing")
       (JStr (stringify (JArr [JStr "Nasi Goreng Kambing"; JStr "Es Teh Manis"])))
       (JNum 45000) (JStr "delivered") now;
     mk_order 2 (JNum 2) (JStr "Ayam Geprek Bensu")
       (JStr (stringify (JArr [JStr "Ayam Geprek Level 5"; JStr "Jus Alpukat"])))
       (JNum 35000) (JStr "on_delivery") now]
    2 now.

(** parseOrderRow: [None] when JSON.parse throws. *)
Definition parseOrderRow (row : order) : option json :=
  match JSON.parse (to_string (items row)) with
  | None => None
  | Some its =>
      Some (JObj
        (set "createdAt" (JStr (created_at row))
          (set "restaurantName" (restaurant_name row)
            (set "userId" (user_id row)
              (set "totalPrice" (total_price row)
                (set "items" its (row_object row)))))))
  end.

(** ** Statements *)

Inductive column : Type :=
| col_status
| col_restaurant_name
| col_items
| col_total_price.

Definition column_name (c : column) : string :=
  match c with
  | col_status => "status"
  | col_restaurant_name => "restaurant_name"
  | col_items => "items"
  | col_total_price => "total_price"
  end.

Definition not_null (c : column) : bool :=
  match c with
  | col_status => false
  | _ => true
  end.

Definition cell (c : column) (r : order) : json :=
  match c with
  | col_status => status r
  | col_restaurant_name => restaurant_name r
  | col_items => items r
  | col_total_price => total_price r
  end.

Definition assign (r : order) (cv : column * json) : order :=
  match fst cv with
  | col_status =>
      mk_order (id r) (user_id r) (restaurant_name r) (items r)
        (total_price r) (snd cv) (created_at r)
  | col_restaurant_name =>
      mk_order (id r) (user_id r) (snd cv) (items r) (total_price r)
        (status r) (created_at r)
  | col_items =>
      mk_order (id r) (user_id r) (restaurant_name r) (snd cv)
        (total_price r) (status r) (created_at r)
  | col_total_price =>
      mk_order (id r) (user_id r) (restaurant_name r) (items r) (snd cv)
        (status r) (created_at r)
  end.

(** SELECT * FROM orders [WHERE user_id = ?] ORDER BY id DESC *)
Fixpoint insert_desc (r : order) (l : list order) : list order :=
  match l with
  | [] => [r]
  | v :: l' => if id v <=? id r then r :: l else v :: insert_desc r l'
  end.

Definition select_all (d : db) (userId : option string) : list order :=
  fold_right insert_desc []
    (match userId with
     | Some p => filter (fun r => cell_matches (user_id r) p) (rows d)
     | None => rows d
     end).

(** SELECT * FROM orders WHERE id = ? *)
Definition select_id (d : db) (p : json) : option order :=
  find (fun r => id_matches p (id r)) (rows d).

(** INSERT INTO orders (user_id, restaurant_name, items, total_price,
    status) VALUES (?, ?, ?, ?, ?); the result is [this.lastID]. *)
Definition insert (d : db) (u r i t s : option json) : db_result Z * db :=
  match first_null [("user_id", bind u); ("restaurant_name", bind r);
                    ("items", bind i); ("total_price", bind t)] with
  | Some c => (db_err (not_null_failed "orders" c), d)
  | None =>
      let n := fresh_id (map id (rows d)) (seq d) in
      (db_ok n,
       mk_db (rows d ++ [mk_order n (bind u) (bind r) (bind i) (bind t)
                           (bind s) (clock d)])
             n (clock d))
  end.

(** UPDATE orders SET c1 = ?, ..., cn = ? WHERE id = ?; the result is
    [this.changes]. *)
Definition update (d : db) (sets : list (column * json)) (p : json)
  : db_result nat * db :=
  let hit := fun r => id_matches p (id r) in
  match filter hit (rows d) with
  | [] => (db_ok O, d)
  | matched =>
      match first_null
              (map (fun cv => (column_name (fst cv), snd cv))
                 (filter (fun cv => not_null (fst cv)) sets)) with
      | Some c => (db_err (not_null_failed "orders" c), d)
      | None =>
          (db_ok (List.length matched),
           mk_db (map (fun r => if hit r then fold_left assign sets r else r)
                    (rows d))
                 (seq d) (clock d))
      end
  end.

(** DELETE FROM orders WHERE id = ? *)
Definition delete (d : db) (p : json) : db_result nat * db :=
  let hit := fun r => id_matches p (id r) in
  (db_ok (List.length (filter hit (rows d))),
   mk_db (filter (fun r => negb (hit r)) (rows d)) (seq d) (clock d)).

(** ** Handlers as trees of operations

    A handler is a tree whose nodes are the asynchronous operations it
    starts (a statement on the store, an outbound GET) and whose branches
    are the callbacks that receive their results. *)
Inductive prog : Type :=
| respond (r : response)
| throw (message : string)
| db_all (userId : option string) (k : db_result (list order) -> prog)
| db_get (p : json) (k : db_result (option order) -> prog)
| db_run_insert (u r i t s : option json) (k : db_result Z -> prog)
| db_run_update (updateFields : list (column * json)) (p : json)
    (k : db_result nat -> prog)
| db_run_delete (p : json) (k : db_result nat -> prog)
| axios_get (url : string) (k : response + axios_error -> prog).

Inductive event : Type :=
| StoreRead (found : list order)
| StoreWrite
| HttpGet (url : string).

Inductive outcome : Type :=
| responded (r : response)
| crashed (message : string).

Definition to_list (o : option order) : list order :=
  match o with
  | Some r => [r]
  | None => []
  end.

(** Running a handler against the store [d], the network [net] and the
    engine failures [fs]: what is sent back, the store afterwards, and the
    operations performed, in order. *)
Fixpoint run (h : prog) (d : db) (net : string -> reply) (fs : faults)
  : outcome * db * list event :=
  match h with
  | respond r => (responded r, d, [])
  | throw m => (crashed m, d, [])
  | db_all userId k =>
      match next_fault fs with
      | Some e =>
          let '(o, d', t) := run (k (db_err e)) d net (tl fs) in
          (o, d', StoreRead [] :: t)
      | None =>
          let l := select_all d userId in
          let '(o, d', t) := run (k (db_ok l)) d net (tl fs) in
          (o, d', StoreRead l :: t)
      end
  | db_get p k =>
      match next_fault fs with
      | Some e =>
          let '(o, d', t) := run (k (db_err e)) d net (tl fs) in
          (o, d', StoreRead [] :: t)
      | None =>
          let r := select_id d p in
          let '(o, d', t) := run (k (db_ok r)) d net (tl fs) in
          (o, d', StoreRead (to_list r) :: t)
      end
  | db_run_insert u r i t s k =>
      let '(res, dw) :=
        match next_fault fs with
        | Some e => (db_err e, d)
        | None => insert d u r i t s
        end in
      let '(o, d', tr) := run (k res) dw net (tl fs) in
      (o, d', StoreWrite :: tr)
  | db_run_update sets p k =>
      let '(res, dw) :=
        match next_fault fs with
        | Some e => (db_err e, d)
        | None => update d sets p
        end in
      let '(o, d', tr) := run (k res) dw net (tl fs) in
      (o, d', StoreWrite :: tr)
  | db_run_delete p k =>
      let '(res, dw) :=
        match next_fault fs with
        | Some e => (db_err e, d)
        | None => delete d p
        end in
      let '(o, d', tr) := run (k res) dw net (tl fs) in
      (o, d', StoreWrite :: tr)
  | axios_get url k =>
      let '(o, d', t) := run (k (axios (net url))) d net fs in
      (o, d', HttpGet url :: t)
  end.

(** ** Routes *)

(** [rows.map(parseOrderRow)] *)
Fixpoint parse_rows (l : list order) : option (list json) :=
  match l with
  | [] => Some []
  | r :: l' =>
      match parseOrderRow r, parse_rows l' with
      | Some o, Some os => Some (o :: os)
      | _, _ => None
      end
  end.

(** [`${x}`] for a property that may be missing. *)
Definition template (o : option json) : string :=
  match o with
  | Some v => to_string v
  | None => "undefined"
  end.

(** [{...o}] *)
Definition spread (o : json) : list (string * json) :=
  match o with
  | JObj m => m
  | _ => []
  end.

(** app.get('/orders') *)
Definition get_orders (userId : option string) : prog :=
  let params :=
    match userId with
    | Some p => if negb (p =? "")%string then Some p else None
    | None => None
    end in
  db_all params (fun res =>
    match res with
    | db_err e => respond (mk_response 500 (failure_error "Error fetching orders" e))
    | db_ok rows =>
        match parse_rows rows with
        | Some orders => respond (mk_response 200 (success_data (Some (JArr orders))))
        | None => throw "SyntaxError"
        end
    end).

(** app.get('/orders/:id') *)
Definition get_orders_id (param : string) : prog :=
  db_get (JStr param) (fun res =>
    match res with
    | db_err e => respond (mk_response 500 (failure_error "Error fetching order" e))
    | db_ok None => respond (mk_response 404 (failure "Order tidak ditemukan"))
    | db_ok (Some row) =>
        match parseOrderRow row with
        | Some order => respond (mk_response 200 (success_data (Some order)))
        | None => throw "SyntaxError"
        end
    end).

(** app.get('/orders/:id/with-user') *)
Definition get_orders_id_with_user (USER_SERVICE_URL param : string) : prog :=
  db_get (JStr param) (fun res =>
    match res with
    | db_err e => respond (mk_response 500 (failure_error "Error fetching order" e))
    | db_ok None => respond (mk_response 404 (failure "Order tidak ditemukan"))
    | db_ok (Some row) =>
        match parseOrderRow row with
        | None => throw "SyntaxError"
        | Some order =>
            axios_get
              (USER_SERVICE_URL ++ "/users/" ++ template (get "userId" order))
              (fun result =>
                 match result with
                 | inl userResponse =>
                     match body userResponse with
                     | JNull =>
                         respond (mk_response 500
                           (failure_error "Gagal mengambil data user"
                              "Cannot read properties of null (reading 'data')"))
                     | data =>
                         respond (mk_response 200
                           (success_data
                              (Some (JObj (set_opt "userDetails"
                                             (get "data" data)
                                             (spread order))))))
                     end
                 | inr userError =>
                     respond (mk_response 500
                       (failure_error "Gagal mengambil data user"
                          (error_message userError)))
                 end)
        end
    end).

(** app.post('/orders') *)
Definition post_orders (body : json) : prog :=
  let userId := get "userId" body in
  let restaurantName := get "restaurantName" body in
  let items := get "items" body in
  let totalPrice := get "totalPrice" body in
  if negb (truthy_opt userId) || negb (truthy_opt restaurantName)
     || negb (truthy_opt items) || negb (truthy_opt totalPrice)
  then respond (mk_response 400 (failure "Semua field wajib diisi"))
  else
    let itemsJson := option_map (fun v => JStr (stringify v)) items in
    db_run_insert userId restaurantName itemsJson totalPrice
      (Some (JStr "pending"))
      (fun res =>
         match res with
         | db_err e =>
             respond (mk_response 500 (failure_error "Error creating order" e))
         | db_ok lastID =>
             db_get (JNum lastID) (fun res' =>
               match res' with
               | db_err e =>
                   respond (mk_response 500
                     (failure_error "Error fetching created order" e))
               | db_ok None => throw "TypeError"
               | db_ok (Some row) =>
                   match parseOrderRow row with
                   | Some order =>
                       respond (mk_response 201 (success_data (Some order)))
                   | None => throw "SyntaxError"
                   end
               end)
         end).

(** [if (x) { updateFields.push('c = ?'); params.push(f(x)); }]: the
    fragment and its parameter are kept together as one entry. *)
Definition push_if (c : column) (x : option json) (f : json -> json)
           (updateFields : list (column * json)) : list (column * json) :=
  match x with
  | Some v => if truthy v then updateFields ++ [(c, f v)] else updateFields
  | None => updateFields
  end.

Definition build_update (body : json) : list (column * json) :=
  let status := get "status" body in
  let restaurantName := get "restaurantName" body in
  let items := get "items" body in
  let totalPrice := get "totalPrice" body in
  let updateFields := [] in
  let updateFields := push_if col_status status (fun v => v) updateFields in
  let updateFields :=
    push_if col_restaurant_name restaurantName (fun v => v) updateFields in
  let updateFields :=
    push_if col_items items (fun v => JStr (stringify v)) updateFields in
  let updateFields :=
    push_if col_total_price totalPrice (fun v => v) updateFields in
  updateFields.

(** app.put('/orders/:id') *)
Definition put_orders_id (param : string) (body : json) : prog :=
  let updateFields := build_update body in
  if (List.length updateFields =? 0)%nat
  then respond (mk_response 400 (failure "Tidak ada field yang diupdate"))
  else
    db_run_update updateFields (JStr param) (fun res =>
      match res with
      | db_err e =>
          respond (mk_response 500 (failure_error "Error updating order" e))
      | db_ok changes =>
          if (changes =? 0)%nat
          then respond (mk_response 404 (failure "Order tidak ditemukan"))
          else
            db_get (JStr param) (fun res' =>
              match res' with
              | db_err e =>
                  respond (mk_response 500
                    (failure_error "Error fetching updated order" e))
              | db_ok None => throw "TypeError"
              | db_ok (Some row) =>
                  match parseOrderRow row with
                  | Some order =>
                      respond (mk_response 200 (success_data (Some order)))
                  | None => throw "SyntaxError"
                  end
              end)
      end).

(** app.delete('/orders/:id') *)
Definition delete_orders_id (param : string) : prog :=
  db_run_delete (JStr param) (fun res =>
    match res with
    | db_err e =>
        respond (mk_response 500 (failure_error "Error deleting order" e))
    | db_ok changes =>
        if (changes =? 0)%nat
        then respond (mk_response 404 (failure "Order tidak ditemukan"))
        else respond (mk_response 200 (success_message "Order berhasil dihapus"))
    end).

(** The routes of the service. *)
Inductive request : Type :=
| GET_orders (userId : option string)
| GET_orders_id (param : string)
| GET_orders_id_with_user (param : string)
| POST_orders (body : json)
| PUT_orders_id (param : string) (body : json)
| DELETE_orders_id (param : string).

Definition app (USER_SERVICE_URL : string) (req : request) : prog :=
  match req with
  | GET_orders userId => get_orders userId
  | GET_orders_id param => get_orders_id param
  | GET_orders_id_with_user param =>
      get_orders_id_with_user USER_SERVICE_URL param
  | POST_orders body => post_orders body
  | PUT_orders_id param body => put_orders_id param body
  | DELETE_orders_id param => delete_orders_id param
  end.

(** ** Vocabulary of the properties *)

(** The body field that feeds a column on PUT. *)
Definition field_name (c : column) : string :=
  match c with
  | col_status => "status"
  | col_restaurant_name => "restaurantName"
  | col_items => "items"
  | col_total_price => "totalPrice"
  end.

(** What a PUT body supplies for a column as far as the handler can tell. *)
Definition supplied (c : column) (body : json) : option json :=
  match get (field_name c) body with
  | Some v => if truthy v then Some v else None
  | None => None
  end.

(** The [data] member of a response body. *)
Definition data_of (r : response) : option json := get "data" (body r).

Definition status_of (o : outcome) : option Z :=
  match o with
  | responded r => Some (Http.status r)
  | crashed _ => None
  end.

(** An order object sent out is the reshaped form of a stored row. *)
Definition reshaped (d : db) (o : json) : Prop :=
  exists row, In row (rows d) /\ parseOrderRow row = Some o.

(** Every items cell holds the text JSON.stringify produced for some
    value; the seed and every write of the service keep it so. *)
Definition items_encoded (d : db) : Prop :=
  Forall (fun r => exists v, items r = JStr (stringify v)) (rows d).

(** The row INSERT makes of four bound values. *)
Definition created (d : db) (u r i t : json) : order :=
  mk_order (fresh_id (map id (rows d)) (seq d)) u r (JStr (stringify i)) t
    (JStr "pending") (clock d).

(** The order object POST answers with. *)
Definition created_object (row : order) (i : json) : json :=
  JObj [("id", JNum (id row)); ("user_id", user_id row);
        ("restaurant_name", restaurant_name row); ("items", i);
        ("total_price", total_price row); ("status", JStr "pending");
        ("created_at", JStr (created_at row));
        ("totalPrice", total_price row); ("userId", user_id row);
        ("restaurantName", restaurant_name row);
        ("createdAt", JStr (created_at row))].

(** The store after UPDATE has applied [sets] to the rows [param]
    matches. *)
Definition updated (param : string) (sets : list (column * json)) (d : db)
  : db :=
  mk_db (map (fun r => if id_matches (JStr param) (id r)
                       then fold_left assign sets r else r) (rows d))
        (seq d) (clock d).

(** What UPDATE binds to a column for a supplied value. *)
Definition bound (c : column) (v : json) : json :=
  match c with
  | col_items => JStr (stringify v)
  | _ => v
  end.

Definition entry (c : column) (body : json) : list (column * json) :=
  match supplied c body with
  | Some v => [(c, bound c v)]
  | None => []
  end.

Definition column_eqb (a b : column) : bool :=
  match a, b with
  | col_status, col_status
  | col_restaurant_name, col_restaurant_name
  | col_items, col_items
  | col_total_price, col_total_price => true
  | _, _ => false
  end.

Definition required_fields : list string :=
  ["userId"; "restaurantName"; "items"; "totalPrice"].

(** ** Start-up: initializeDatabase and seedInitialData *)

(** A database file that did not exist yet. *)
Definition empty (now : string) : db := mk_db [] 0 now.

Definition initialOrders : list (json * json * json * json * json) :=
  [(JNum 1, JStr "Nasi Goreng Kambing",
    JStr (stringify (JArr [JStr "Nasi Goreng Kambing"; JStr "Es Teh Manis"])),
    JNum 45000, JStr "delivered");
   (JNum 2, JStr "Ayam Geprek Bensu",
    JStr (stringify (JArr [JStr "Ayam Geprek Level 5"; JStr "Jus Alpukat"])),
    JNum 35000, JStr "on_delivery")].

(** [stmt.run([...])] without a callback: an error is dropped. *)
Definition stmt_run (d : db) (fs : faults)
           (o : json * json * json * json * json) : db :=
  let '(u, r, i, t, s) := o in
  match next_fault fs with
  | Some _ => d
  | None => snd (insert d (Some u) (Some r) (Some i) (Some t) (Some s))
  end.

(** [initialOrders.forEach(order => stmt.run(...))] *)
Fixpoint run_each (d : db) (fs : faults)
         (l : list (json * json * json * json * json)) : db :=
  match l with
  | [] => d
  | o :: l' => run_each (stmt_run d fs o) (tl fs) l'
  end.

(** SELECT COUNT( * ) first; the rows go in only when the count is 0. *)
Definition seedInitialData (d : db) (fs : faults) : db :=
  match next_fault fs with
  | Some _ => d
  | None =>
      if (List.length (rows d) =? 0)%nat
      then run_each d (tl fs) initialOrders
      else d
  end.

(** CREATE TABLE IF NOT EXISTS, then the seeding. *)
Definition initializeDatabase (d : db) (fs : faults) : db :=
  match next_fault fs with
  | Some _ => d
  | None => seedInitialData d (tl fs)
  end.

(** The ids of a table are in order when they are pairwise distinct and
    none is above the sequence. *)
Definition ids_ok (d : db) : Prop :=
  NoDup (map id (rows d)) /\ Forall (fun r => id r <= seq d) (rows d).

(** The response of a run that sent one. *)
Definition answer (o : outcome) : response :=
  match o with
  | responded r => r
  | crashed _ => mk_response 0 JNull
  end.

(** The routes that only read. *)
Definition reads_only (req : request) : bool :=
  match req with
  | GET_orders _ | GET_orders_id _ | GET_orders_id_with_user _ => true
  | _ => false
  end.

End OrderService.

(* ================================================================== *)
(** * API Gateway (api-gateway/server.js) *)

Module Gateway.
Import JSON Http.

Inductive method : Type := GET | POST | PUT | DELETE.

(** The proxied routes. *)
Inductive request : Type :=
| GET_api_users
| GET_api_users_id (id : string)
| POST_api_users (body : json)
| PUT_api_users_id (id : string) (body : json)
| DELETE_api_users_id (id : string)
| GET_api_orders (query : list (string * string))
| GET_api_orders_id (id : string)
| GET_api_orders_id_with_user (id : string)
| POST_api_orders (body : json)
| PUT_api_orders_id (id : string) (body : json).

Definition method_of (req : request) : method :=
  match req with
  | GET_api_users | GET_api_users_id _ | GET_api_orders _
  | GET_api_orders_id _ | GET_api_orders_id_with_user _ => GET
  | POST_api_users _ | POST_api_orders _ => POST
  | PUT_api_users_id _ _ | PUT_api_orders_id _ _ => PUT
  | DELETE_api_users_id _ => DELETE
  end.

(** The call a route makes to its backend. *)
Record call : Type := mk_call {
  call_method : method;
  call_url : string;
  call_params : list (string * string);
  call_body : option json
}.

Definition upstream (USER_SERVICE_URL ORDER_SERVICE_URL : string)
           (req : request) : call :=
  match req with
  | GET_api_users => mk_call GET (USER_SERVICE_URL ++ "/users") [] None
  | GET_api_users_id id =>
      mk_call GET (USER_SERVICE_URL ++ "/users/" ++ id) [] None
  | POST_api_users body =>
      mk_call POST (USER_SERVICE_URL ++ "/users") [] (Some body)
  | PUT_api_users_id id body =>
      mk_call PUT (USER_SERVICE_URL ++ "/users/" ++ id) [] (Some body)
  | DELETE_api_users_id id =>
      mk_call DELETE (USER_SERVICE_URL ++ "/users/" ++ id) [] None
  | GET_api_orders query =>
      mk_call GET (ORDER_SERVICE_URL ++ "/orders") query None
  | GET_api_orders_id id =>
      mk_call GET (ORDER_SERVICE_URL ++ "/orders/" ++ id) [] None
  | GET_api_orders_id_with_user id =>
      mk_call GET (ORDER_SERVICE_URL ++ "/orders/" ++ id ++ "/with-user") []
        None
  | POST_api_orders body =>
      mk_call POST (ORDER_SERVICE_URL ++ "/orders") [] (Some body)
  | PUT_api_orders_id id body =>
      mk_call PUT (ORDER_SERVICE_URL ++ "/orders/" ++ id) [] (Some body)
  end.

(** [error.response?.status || 500] *)
Definition status_or_500 (error : axios_error) : Z :=
  match error_response error with
  | Some r => if status r =? 0 then 500 else status r
  | None => 500
  end.

(** What a route sends back, given how its backend call ended. *)
Definition handle (req : request) (result : response + axios_error)
  : response :=
  match req, result with
  | GET_api_users, inl response => mk_response 200 (body response)
  | GET_api_users, inr error =>
      mk_response 500
        (failure_error "Error fetching users" (error_message error))
  | GET_api_users_id _, inl response => mk_response 200 (body response)
  | GET_api_users_id _, inr error =>
      mk_response (status_or_500 error)
        (failure_error "Error fetching user" (error_message error))
  | POST_api_users _, inl response => mk_response 201 (body response)
  | POST_api_users _, inr error =>
      mk_response 500
        (failure_error "Error creating user" (error_message error))
  | PUT_api_users_id _ _, inl response => mk_response 200 (body response)
  | PUT_api_users_id _ _, inr error =>
      mk_response 500
        (failure_error "Error updating user" (error_message error))
  | DELETE_api_users_id _, inl response => mk_response 200 (body response)
  | DELETE_api_users_id _, inr error =>
      mk_response 500
        (failure_error "Error deleting user" (error_message error))
  | GET_api_orders _, inl response => mk_response 200 (body response)
  | GET_api_orders _, inr error =>
      mk_response 500
        (failure_error "Error fetching orders" (error_message error))
  | GET_api_orders_id _, inl response => mk_response 200 (body response)
  | GET_api_orders_id _, inr error =>
      mk_response (status_or_500 error)
        (failure_error "Error fetching order" (error_message error))
  | GET_api_orders_id_with_user _, inl response =>
      mk_response 200 (body response)
  | GET_api_orders_id_with_user _, inr error =>
      mk_response (status_or_500 error)
        (failure_error "Error fetching order with user" (error_message error))
  | POST_api_orders _, inl response => mk_response 201 (body response)
  | POST_api_orders _, inr error =>
      mk_response 500
        (failure_error "Error creating order" (error_message error))
  | PUT_api_orders_id _ _, inl response => mk_response 200 (body response)
  | PUT_api_orders_id _ _, inr error =>
      mk_response 500
        (failure_error "Error updating order" (error_message error))
  end.

(** The gateway in front of a network that answers calls. *)
Definition app (USER_SERVICE_URL ORDER_SERVICE_URL : string)
           (net : call -> reply) (req : request) : response :=
  handle req (axios (net (upstream USER_SERVICE_URL ORDER_SERVICE_URL req))).

(** The routes the specification lists as passing the backend status on. *)
Definition propagates (req : request) : bool :=
  match req with
  | GET_api_users_id _ | GET_api_orders_id _
  | GET_api_orders_id_with_user _ => true
  | _ => false
  end.

End Gateway.

(* ================================================================== *)
(** * The three services together *)

Module System.
Import JSON Http Sql.

Record state : Type := mk_state {
  users : UserService.db;
  orders : OrderService.db
}.

(** [req.query.userId] *)
Fixpoint query_param (k : string) (q : list (string * string))
  : option string :=
  match q with
  | [] => None
  | (k', v) :: q' => if (k' =? k)%string then Some v else query_param k q'
  end.

(** The backend route a gateway route calls: same method, the path
    without its /api prefix, at the base URL of the service. *)
Definition target (req : Gateway.request)
  : UserService.request + OrderService.request :=
  match req with
  | Gateway.GET_api_users => inl UserService.GET_users
  | Gateway.GET_api_users_id id => inl (UserService.GET_users_id id)
  | Gateway.POST_api_users body => inl (UserService.POST_users body)
  | Gateway.PUT_api_users_id id body => inl (UserService.PUT_users_id id body)
  | Gateway.DELETE_api_users_id id => inl (UserService.DELETE_users_id id)
  | Gateway.GET_api_orders query =>
      inr (OrderService.GET_orders (query_param "userId" query))
  | Gateway.GET_api_orders_id id => inr (OrderService.GET_orders_id id)
  | Gateway.GET_api_orders_id_with_user id =>
      inr (OrderService.GET_orders_id_with_user id)
  | Gateway.POST_api_orders body => inr (OrderService.POST_orders body)
  | Gateway.PUT_api_orders_id id body =>
      inr (OrderService.PUT_orders_id id body)
  end.

(** What the backend answers to the call of a gateway route, and the
    stores afterwards. The Order Service reaches the User Service at
    [USER_SERVICE_URL]; a handler that dies leaves the call unanswered. *)
Definition backend (USER_SERVICE_URL : string) (s : state)
           (ufs ofs : faults) (req : Gateway.request) : reply * state :=
  match target req with
  | inl ureq =>
      let '(r, ud) := UserService.app (users s) ufs ureq in
      (Reply r, mk_state ud (orders s))
  | inr oreq =>
      let '(o, od, _) :=
        OrderService.run (OrderService.app USER_SERVICE_URL oreq) (orders s)
          (UserService.http_get USER_SERVICE_URL (users s) ufs) ofs in
      (match o with
       | OrderService.responded r => Reply r
       | OrderService.crashed m => NoReply m
       end,
       mk_state (users s) od)
  end.

(** A request to the public API, end to end. *)
Definition api (USER_SERVICE_URL : string) (s : state) (ufs ofs : faults)
           (req : Gateway.request) : response * state :=
  let '(answer, s') := backend USER_SERVICE_URL s ufs ofs req in
  (Gateway.handle req (axios answer), s').

(** ** Vocabulary of the properties *)



End System.

(* ================================================================== *)
(** * Properties *)

(** ** The JSON codec *)

Module JSONFacts.
Import JSON.

Lemma append_assoc (a b c : string) : ((a ++ b) ++ c = a ++ (b ++ c))%string.
Proof. induction a as [|x a IH]; simpl; [reflexivity | now rewrite IH]. Qed.

Lemma length_append (a b : string) :
  String.length (a ++ b) = (String.length a + String.length b)%nat.
Proof. induction a as [|x a IH]; simpl; [reflexivity | now rewrite IH]. Qed.

Lemma strip_prefix_append (p r : string) : strip_prefix p (p ++ r) = Some r.
Proof.
  induction p as [|a p IH]; simpl; [reflexivity|].
  now rewrite Ascii.eqb_refl.
Qed.

(** Reading back one quoted character. *)
Lemma parse_quote_char (c : ascii) (tail : string) :
  parse_chars (quote_char c ++ tail)
  = prepend (String c EmptyString) (parse_chars tail).
Proof.
  destruct c as [[|] [|] [|] [|] [|] [|] [|] [|]]; reflexivity.
Qed.

Lemma parse_quote_chars (s rest : string) :
  parse_chars (quote_chars s ++ String dquote rest) = Some (s, rest).
Proof.
  induction s as [|c s IH]; simpl.
  - reflexivity.
  - rewrite append_assoc, parse_quote_char, IH. reflexivity.
Qed.

Lemma follow_cases (rest : string) :
  follow rest = true ->
  rest = EmptyString \/
  exists r, rest = String "," r \/ rest = String "]" r \/ rest = String "}" r.
Proof.
  destruct rest as [|c r]; [now left|]. simpl. intros H. right. exists r.
  apply orb_true_iff in H. destruct H as [H|H];
    [apply orb_true_iff in H; destruct H as [H|H]|];
    apply Ascii.eqb_eq in H; subst; auto.
Qed.

Ltac follow_split H :=
  apply follow_cases in H; destruct H as [->|[? [->|[->| ->]]]].

Lemma span_digits_uint (u : uint) (rest : string) :
  follow rest = true ->
  span_digits (NilEmpty.string_of_uint u ++ rest)
  = (NilEmpty.string_of_uint u, rest).
Proof.
  intros H. induction u; simpl; try (rewrite IHu; reflexivity).
  follow_split H; reflexivity.
Qed.

Lemma to_uint_head (p : positive) (d : uint) :
  Pos.to_uint p = D0 d -> d = Nil.
Proof.
  intros E.
  assert (U : unorm (Pos.to_uint p) = Pos.to_uint p).
  { rewrite <- (DecimalPos.Unsigned.to_of (Pos.to_uint p)).
    now rewrite DecimalPos.Unsigned.of_to. }
  rewrite E in U. unfold unorm in U.
  destruct (nzhead (D0 d)) eqn:N; try discriminate.
  - now injection U.
  - exfalso. apply (nzhead_nonzero (D0 d) u). now rewrite N, U.
Qed.

Lemma of_uint_to_uint (p : positive) : Z.of_uint (Pos.to_uint p) = Z.pos p.
Proof.
  unfold Z.of_uint. now rewrite DecimalPos.Unsigned.of_to.
Qed.

Lemma parse_digits (p : positive) (neg : bool) (rest : string) :
  follow rest = true ->
  (let (ds, rest') := span_digits (NilEmpty.string_of_uint (Pos.to_uint p) ++ rest) in
   match ds with
   | EmptyString => None
   | String d ds' =>
       if ((d =? "0")%char && negb (ds' =? "")%string)%bool then None
       else
         match rest' with
         | String c _ =>
             if ((c =? ".")%char || (c =? "e")%char || (c =? "E")%char)%bool
             then None
             else
               match NilEmpty.uint_of_string ds with
               | Some u => Some (if neg then - Z.of_uint u else Z.of_uint u, rest')
               | None => None
               end
         | EmptyString =>
             match NilEmpty.uint_of_string ds with
             | Some u => Some (if neg then - Z.of_uint u else Z.of_uint u, rest')
             | None => None
             end
         end
   end) = Some (if neg then Z.neg p else Z.pos p, rest).
Proof.
  intros H. rewrite (span_digits_uint _ _ H).
  pose proof (NilEmpty.usu (Pos.to_uint p)) as U.
  pose proof (of_uint_to_uint p) as V.
  pose proof (to_uint_head p) as W.
  pose proof (DecimalPos.Unsigned.to_uint_nonnil p) as NN.
  destruct (Pos.to_uint p) as [|d|d|d|d|d|d|d|d|d|d];
    [congruence|rewrite (W d eq_refl) in *| | | | | | | | |];
    follow_split H; cbn - [NilEmpty.uint_of_string Z.of_uint];
    cbn - [NilEmpty.uint_of_string Z.of_uint] in U;
    rewrite ?U, ?V; try reflexivity.
Qed.

Lemma uint_head_not_minus (u : uint) (rest r : string) :
  u <> Nil -> (NilEmpty.string_of_uint u ++ rest)%string <> String "-" r.
Proof. destruct u; simpl; congruence. Qed.

Lemma parse_number_string_of_Z (n : Z) (rest : string) :
  follow rest = true ->
  parse_number (string_of_Z n ++ rest) = Some (n, rest).
Proof.
  intros H. destruct n as [|p|p].
  - follow_split H; reflexivity.
  - unfold parse_number, string_of_Z. cbn [Z.to_int NilEmpty.string_of_int].
    pose proof (uint_head_not_minus (Pos.to_uint p) rest) as M.
    pose proof (parse_digits p false rest H) as D. cbv beta iota in D.
    destruct (NilEmpty.string_of_uint (Pos.to_uint p) ++ rest)%string
      as [|c r] eqn:E.
    + exact D.
    + destruct (c =? "-")%char eqn:C; [|exact D].
      apply Ascii.eqb_eq in C. subst c. exfalso.
      apply (M r); [apply DecimalPos.Unsigned.to_uint_nonnil | reflexivity].
  - unfold parse_number, string_of_Z. cbn [Z.to_int NilEmpty.string_of_int].
    cbn [append]. rewrite Ascii.eqb_refl.
    exact (parse_digits p true rest H).
Qed.

(** Decide the comparisons of known characters in the goal. *)
Ltac eval_eqb :=
  repeat match goal with
    | |- context [Ascii.eqb ?a ?b] =>
        let v := eval vm_compute in (Ascii.eqb a b) in
        lazymatch v with
        | true => change (Ascii.eqb a b) with true
        | false => change (Ascii.eqb a b) with false
        end
    end;
  cbv iota.

Lemma skip_ws_head (c : ascii) (r : string) :
  is_ws c = false -> skip_ws (String c r) = String c r.
Proof. intros H. simpl. now rewrite H. Qed.

Lemma numeric_head_dispatch (c : ascii) :
  numeric_head c = true ->
  is_ws c = false /\ (c =? "n")%char = false /\ (c =? "t")%char = false /\
  (c =? "f")%char = false /\ (c =? dquote)%char = false /\
  (c =? "[")%char = false /\ (c =? "{")%char = false /\
  (c =? "]")%char = false /\ (c =? "}")%char = false.
Proof.
  destruct c as [[|] [|] [|] [|] [|] [|] [|] [|]];
    cbv; intros H; try discriminate H; repeat split.
Qed.

Lemma string_of_Z_head (n : Z) (t : string) :
  exists c t', (string_of_Z n ++ t)%string = String c t' /\ numeric_head c = true.
Proof.
  destruct n as [|p|p]; unfold string_of_Z; cbn [Z.to_int NilEmpty.string_of_int].
  - now exists "0"%char, t.
  - pose proof (DecimalPos.Unsigned.to_uint_nonnil p) as NN.
    destruct (Pos.to_uint p); [congruence| | | | | | | | | |];
      simpl; eexists; eexists; split; reflexivity.
  - simpl. eexists; eexists; split; reflexivity.
Qed.

Lemma parse_value_S (f : nat) (s : string) :
  parse_value (S f) s =
  match skip_ws s with
  | EmptyString => None
  | String c r =>
      if (c =? "n")%char then expect "ull" JNull r
      else if (c =? "t")%char then expect "rue" (JBool true) r
      else if (c =? "f")%char then expect "alse" (JBool false) r
      else if (c =? dquote)%char then
        match parse_chars r with
        | Some (str, r') => Some (JStr str, r')
        | None => None
        end
      else if (c =? "[")%char then
        match skip_ws r with
        | String c' r' =>
            if (c' =? "]")%char then Some (JArr [], r')
            else
              match parse_elements f r with
              | Some (l, r'') => Some (JArr l, r'')
              | None => None
              end
        | EmptyString => None
        end
      else if (c =? "{")%char then
        match skip_ws r with
        | String c' r' =>
            if (c' =? "}")%char then Some (JObj [], r')
            else
              match parse_members f r with
              | Some (m, r'') => Some (JObj m, r'')
              | None => None
              end
        | EmptyString => None
        end
      else
        match parse_number (String c r) with
        | Some (n, r') => Some (JNum n, r')
        | None => None
        end
  end.
Proof. reflexivity. Qed.

Lemma parse_value_number (f : nat) (n : Z) (rest : string) :
  follow rest = true ->
  parse_value (S f) (string_of_Z n ++ rest) = Some (JNum n, rest).
Proof.
  intros H. rewrite parse_value_S.
  destruct (string_of_Z_head n rest) as (c & t' & E & Hc).
  pose proof (parse_number_string_of_Z n rest H) as PN. rewrite E in *.
  destruct (numeric_head_dispatch c Hc) as (W & A & B & C & D & F & G & _).
  rewrite (skip_ws_head _ _ W), A, B, C, D, F, G, PN. reflexivity.
Qed.

(** The first character of an encoded value is neither blank nor a closing
    bracket. *)
Lemma stringify_head (v : json) (t : string) :
  exists c t', (stringify v ++ t)%string = String c t' /\
    is_ws c = false /\ (c =? "]")%char = false /\ (c =? "}")%char = false.
Proof.
  destruct v as [|[|]|n|s|l|m]; simpl;
    try (eexists; eexists; split; [reflexivity|repeat split; reflexivity]).
  destruct (string_of_Z_head n t) as (c & t' & E & Hc).
  exists c, t'. split; [exact E|].
  destruct (numeric_head_dispatch c Hc) as (W & _ & _ & _ & _ & _ & _ & X & Y).
  auto.
Qed.

Lemma stringify_arr (l : list json) :
  stringify (JArr l) = ("[" ++ String.concat "," (map stringify l) ++ "]")%string.
Proof. reflexivity. Qed.

Lemma stringify_obj (m : list (string * json)) :
  stringify (JObj m) = ("{" ++ String.concat "," (map member m) ++ "}")%string.
Proof. reflexivity. Qed.

Lemma concat_cons (sep x : string) (l : list string) (t : string) :
  (String.concat sep (x :: l) ++ t)%string
  = match l with
    | [] => (x ++ t)%string
    | _ :: _ => (x ++ sep ++ String.concat sep l ++ t)%string
    end.
Proof.
  destruct l; [reflexivity|].
  cbn [String.concat]. now rewrite !append_assoc.
Qed.

Lemma parse_elements_S (f : nat) (s : string) :
  parse_elements (S f) s =
  match parse_value f s with
  | None => None
  | Some (v, r) =>
      match skip_ws r with
      | String c r' =>
          if (c =? ",")%char then
            match parse_elements f r' with
            | Some (l, r'') => Some (v :: l, r'')
            | None => None
            end
          else if (c =? "]")%char then Some ([v], r')
          else None
      | EmptyString => None
      end
  end.
Proof. reflexivity. Qed.

Lemma parse_members_S (f : nat) (s : string) :
  parse_members (S f) s =
  match skip_ws s with
  | String q r0 =>
      if (q =? dquote)%char then
        match parse_chars r0 with
        | None => None
        | Some (k, r1) =>
            match skip_ws r1 with
            | String c1 r2 =>
                if (c1 =? ":")%char then
                  match parse_value f r2 with
                  | None => None
                  | Some (v, r3) =>
                      match skip_ws r3 with
                      | String c r' =>
                          if (c =? ",")%char then
                            match parse_members f r' with
                            | Some (m, r'') => Some ((k, v) :: m, r'')
                            | None => None
                            end
                          else if (c =? "}")%char then Some ([(k, v)], r')
                          else None
                      | EmptyString => None
                      end
                  end
                else None
            | EmptyString => None
            end
        end
      else None
  | EmptyString => None
  end.
Proof. reflexivity. Qed.

Ltac size_lia :=
  unfold elements_size, members_size in *;
  cbn [map list_sum fold_right size snd] in *; lia.

(** Reading back what [stringify] wrote, for the three mutually recursive
    readers at once. *)
Lemma parse_stringify_fuel (fuel : nat) :
  (forall v rest, (size v <= fuel)%nat -> follow rest = true ->
     parse_value fuel (stringify v ++ rest) = Some (v, rest)) /\
  (forall v l rest, (elements_size (v :: l) <= fuel)%nat ->
     parse_elements fuel
       (String.concat "," (map stringify (v :: l)) ++ String "]" rest)
     = Some (v :: l, rest)) /\
  (forall kv m rest, (members_size (kv :: m) <= fuel)%nat ->
     parse_members fuel
       (String.concat "," (map member (kv :: m)) ++ String "}" rest)
     = Some (kv :: m, rest)).
Proof.
  induction fuel as [|f (IHv & IHe & IHm)].
  { repeat split; intros.
    - destruct v; simpl in *; lia.
    - unfold elements_size in *; simpl in *; lia.
    - unfold members_size in *; simpl in *; lia. }
  repeat split.
  - intros v rest Hs Hf.
    destruct v as [|[|]|n|s|l|m]; try reflexivity.
    + now apply parse_value_number.
    + rewrite parse_value_S. cbn [stringify quote append].
      rewrite append_assoc. cbn [append].
      rewrite skip_ws_head by reflexivity.
      eval_eqb. now rewrite parse_quote_chars.
    + destruct l as [|x l]; [reflexivity|].
      rewrite parse_value_S, stringify_arr. cbn [append].
      rewrite skip_ws_head by reflexivity. eval_eqb.
      rewrite !append_assoc. cbn [append].
      pose proof (IHe x l rest) as E.
      assert (Hx : exists c t', (String.concat "," (map stringify (x :: l))
                        ++ String "]" rest)%string = String c t' /\
                   is_ws c = false /\ (c =? "]")%char = false).
      { cbn [map]. rewrite concat_cons.
        destruct (map stringify l);
          [destruct (stringify_head x (String "]" rest)) as (c & t' & ? & ? & ? & _)
          |match goal with |- context [(stringify x ++ ?t)%string] =>
             destruct (stringify_head x t) as (c & t' & ? & ? & ? & _) end];
          exists c, t'; auto. }
      destruct Hx as (c & t' & Hc & W & B).
      rewrite E by size_lia.
      rewrite Hc, (skip_ws_head _ _ W), B. reflexivity.
    + destruct m as [|kv m]; [reflexivity|].
      rewrite parse_value_S, stringify_obj. cbn [append].
      rewrite skip_ws_head by reflexivity. eval_eqb.
      rewrite !append_assoc. cbn [append].
      pose proof (IHm kv m rest) as E.
      assert (Hx : exists t', (String.concat "," (map member (kv :: m))
                        ++ String "}" rest)%string = String dquote t').
      { cbn [map]. rewrite concat_cons.
        destruct (map member m); unfold member, quote; cbn [append];
          eexists; reflexivity. }
      destruct Hx as (t' & Hc).
      rewrite E by size_lia.
      rewrite Hc, skip_ws_head by reflexivity. eval_eqb. reflexivity.
  - intros v l rest Hs.
    rewrite parse_elements_S. cbn [map]. rewrite concat_cons.
    unfold elements_size in Hs.
    destruct l as [|y l]; cbn [map list_sum] in Hs.
    + cbn [map]. rewrite IHv by (try reflexivity; size_lia). reflexivity.
    + change (map stringify (y :: l)) with (stringify y :: map stringify l).
      cbv iota. rewrite IHv by (try reflexivity; size_lia).
      cbn [append]. rewrite skip_ws_head by reflexivity.
      eval_eqb.
      change (stringify y :: map stringify l) with (map stringify (y :: l)).
      rewrite IHe by size_lia.
      reflexivity.
  - intros [k v] m rest Hs.
    rewrite parse_members_S. cbn [map]. rewrite concat_cons.
    unfold members_size in Hs. cbn [map list_sum snd] in Hs.
    assert (K : forall t, (member (k, v) ++ t)%string
                = String dquote (quote_chars k ++ String dquote (String ":" (stringify v ++ t)))).
    { intros t. unfold member, quote. cbn [fst snd append].
      now rewrite !append_assoc. }
    destruct m as [|kv' m]; cbn [map list_sum snd] in Hs.
    + cbn [map]. rewrite K, skip_ws_head by reflexivity.
      eval_eqb.
      rewrite parse_quote_chars, skip_ws_head by reflexivity.
      eval_eqb.
      rewrite IHv by (try reflexivity; size_lia). reflexivity.
    + change (map member (kv' :: m)) with (member kv' :: map member m).
      cbv iota. rewrite K, skip_ws_head by reflexivity.
      eval_eqb.
      rewrite parse_quote_chars, skip_ws_head by reflexivity.
      eval_eqb.
      rewrite IHv by (try reflexivity; size_lia).
      cbn [append]. rewrite skip_ws_head by reflexivity.
      eval_eqb.
      change (member kv' :: map member m) with (map member (kv' :: m)).
      rewrite IHm by size_lia.
      reflexivity.
Qed.

Lemma append_nil_r (s : string) : (s ++ "")%string = s.
Proof. induction s as [|c s IH]; simpl; [reflexivity | now rewrite IH]. Qed.

Lemma length_concat_bound (A : Type) (f : A -> string) (g : A -> nat)
      (l : list A) :
  Forall (fun x => (g x <= String.length (f x))%nat) l ->
  (list_sum (map (fun x => S (g x)) l)
   <= S (String.length (String.concat "," (map f l))))%nat.
Proof.
  induction 1 as [|x l Hx Hl IH]; [simpl; lia|].
  cbn [map list_sum fold_right]. fold (list_sum (map (fun x => S (g x)) l)).
  destruct l as [|y l].
  - simpl. lia.
  - cbn [map String.concat] in *. rewrite !length_append.
    cbn [String.length]. lia.
Qed.

Lemma size_le_length (v : json) : (size v <= String.length (stringify v))%nat.
Proof.
  induction v as [|b|n|s|l IH|m IH] using json_nested_ind.
  - simpl; lia.
  - destruct b; simpl; lia.
  - destruct (string_of_Z_head n "") as (c & t' & E & _).
    rewrite append_nil_r in E. simpl. rewrite E. simpl. lia.
  - simpl. lia.
  - rewrite stringify_arr. cbn [size]. rewrite !length_append.
    pose proof (length_concat_bound _ stringify size l IH).
    simpl String.length. lia.
  - rewrite stringify_obj. cbn [size]. rewrite !length_append.
    assert (F : Forall (fun kv => (size (snd kv) <= String.length (member kv))%nat) m).
    { eapply Forall_impl; [|exact IH]. intros [k x] Hk. unfold member.
      rewrite !length_append. cbn [snd] in *. lia. }
    pose proof (length_concat_bound _ member (fun kv => size (snd kv)) m F).
    simpl String.length. lia.
Qed.

(** JSON.parse undoes JSON.stringify, on every value. *)
Lemma parse_stringify (v : json) : parse (stringify v) = Some v.
Proof.
  unfold parse.
  destruct (parse_stringify_fuel (S (String.length (stringify v)))) as (Hv & _).
  specialize (Hv v EmptyString). rewrite append_nil_r in Hv.
  rewrite Hv; [reflexivity| |reflexivity].
  pose proof (size_le_length v). lia.
Qed.

End JSONFacts.

(** ** API Gateway *)

Module GatewayFacts.
Import JSON Http Gateway.

Lemma handle_error_status (req : request) (error : axios_error) :
  status (handle req (inr error))
  = if propagates req then status_or_500 error else 500.
Proof. destruct req; reflexivity. Qed.

(** C3. When the backend answers a proxied call with a status outside 2xx,
    the gateway passes that status on for GET /api/users/{id},
    GET /api/orders/{id} and GET /api/orders/{id}/with-user, and answers
    500 for every other proxied route, whatever the backend status was:
    every POST, PUT and DELETE route and the two list GETs. *)
Theorem gateway_error_status
        (USER_SERVICE_URL ORDER_SERVICE_URL : string) (net : call -> reply)
        (req : request) (up : response) :
  net (upstream USER_SERVICE_URL ORDER_SERVICE_URL req) = Reply up ->
  validateStatus (status up) = false ->
  status up <> 0 ->
  status (app USER_SERVICE_URL ORDER_SERVICE_URL net req)
  = (if propagates req then status up else 500)
  /\ (propagates req = true <->
      (exists id, req = GET_api_users_id id) \/
      (exists id, req = GET_api_orders_id id) \/
      (exists id, req = GET_api_orders_id_with_user id))
  /\ (method_of req <> GET \/ req = GET_api_users
      \/ (exists q, req = GET_api_orders q) ->
      status (app USER_SERVICE_URL ORDER_SERVICE_URL net req) = 500).
Proof.
  intros Hnet Hbad Hnz.
  assert (E : status (app USER_SERVICE_URL ORDER_SERVICE_URL net req)
              = if propagates req then status up else 500).
  { unfold app. rewrite Hnet. unfold axios. rewrite Hbad.
    rewrite handle_error_status. unfold status_or_500. cbn.
    destruct (status up =? 0) eqn:Z0; [|reflexivity].
    apply Z.eqb_eq in Z0. contradiction. }
  split; [exact E|]. split.
  - split.
    + destruct req; cbn; intros H; try discriminate H; eauto.
    + intros [[i ->]|[[i ->]|[i ->]]]; reflexivity.
  - intros H. rewrite E.
    destruct req; cbn in *; try reflexivity;
      destruct H as [H|[H|[q H]]]; congruence.
Qed.

Lemma gateway_error_status_witness :
  status (app "http://localhost:3001" "http://localhost:3002"
            (fun _ => Reply (mk_response 404 (failure "Order tidak ditemukan")))
            (GET_api_orders_id "9")) = 404
  /\ status (app "http://localhost:3001" "http://localhost:3002"
            (fun _ => Reply (mk_response 404 (failure "Order tidak ditemukan")))
            (PUT_api_orders_id "9" (JObj []))) = 500.
Proof.
  split.
  - exact (proj1 (gateway_error_status "http://localhost:3001"
             "http://localhost:3002"
             (fun _ => Reply (mk_response 404 (failure "Order tidak ditemukan")))
             (GET_api_orders_id "9")
             (mk_response 404 (failure "Order tidak ditemukan"))
             eq_refl eq_refl ltac:(discriminate))).
  - exact (proj1 (gateway_error_status "http://localhost:3001"
             "http://localhost:3002"
             (fun _ => Reply (mk_response 404 (failure "Order tidak ditemukan")))
             (PUT_api_orders_id "9" (JObj []))
             (mk_response 404 (failure "Order tidak ditemukan"))
             eq_refl eq_refl ltac:(discriminate))).
Defined.

End GatewayFacts.

(** ** User Service *)

Module UserServiceFacts.
Import JSON Http Sql UserService.


Lemma filter_nil_none {A : Type} (f : A -> bool) (l : list A) :
  filter f l = [] -> forall x, In x l -> f x = false.
Proof.
  intros H x Hx. destruct (f x) eqn:F; [|reflexivity].
  assert (I : In x (filter f l)) by (apply filter_In; auto).
  rewrite H in I. destruct I.
Qed.







End UserServiceFacts.


(** ** Order Service *)

Module OrderServiceFacts.
Import JSON Http Sql OrderService JSONFacts.

#[local] Arguments JSON.parse : simpl never.
#[local] Arguments stringify : simpl never.
#[local] Arguments to_string : simpl never.
#[local] Arguments select_id : simpl never.
#[local] Arguments select_all : simpl never.
#[local] Arguments insert : simpl never.
#[local] Arguments update : simpl never.
#[local] Arguments delete : simpl never.
#[local] Arguments parseOrderRow : simpl never.
#[local] Arguments parse_rows : simpl never.
#[local] Arguments build_update : simpl never.
#[local] Arguments axios : simpl never.
#[local] Arguments next_fault : simpl never.
#[local] Arguments string_of_Z : simpl never.

(** *** Numerals in paths *)

Lemma uint_head_not_minus' (u : uint) (r : string) :
  NilEmpty.string_of_uint u <> String "-" r.
Proof. destruct u; simpl; congruence. Qed.

Lemma int_of_text_string_of_Z (n : Z) : int_of_text (string_of_Z n) = Some n.
Proof.
  unfold string_of_Z. destruct n as [|p|p]; cbn [Z.to_int NilEmpty.string_of_int].
  - reflexivity.
  - unfold int_of_text.
    pose proof (DecimalPos.Unsigned.to_uint_nonnil p) as NN.
    pose proof (NilEmpty.usu (Pos.to_uint p)) as U.
    pose proof (uint_head_not_minus' (Pos.to_uint p)) as M.
    destruct (NilEmpty.string_of_uint (Pos.to_uint p)) as [|c r] eqn:E.
    + destruct (Pos.to_uint p); simpl in E; congruence.
    + destruct (c =? "-")%char eqn:C.
      * apply Ascii.eqb_eq in C. subst c. exfalso. exact (M r eq_refl).
      * rewrite U. cbn. now rewrite of_uint_to_uint.
  - unfold int_of_text. cbn [NilEmpty.string_of_int].
    rewrite Ascii.eqb_refl.
    pose proof (DecimalPos.Unsigned.to_uint_nonnil p) as NN.
    pose proof (NilEmpty.usu (Pos.to_uint p)) as U.
    destruct (NilEmpty.string_of_uint (Pos.to_uint p)) as [|c r] eqn:E.
    + destruct (Pos.to_uint p); simpl in E; congruence.
    + rewrite U. cbn. now rewrite of_uint_to_uint.
Qed.

Lemma id_matches_string_of_Z (n i : Z) :
  id_matches (JStr (string_of_Z n)) i = (n =? i).
Proof. unfold id_matches. now rewrite int_of_text_string_of_Z. Qed.

Lemma fold_max_ge (ids : list Z) (seq : Z) :
  seq <= fold_right Z.max seq ids /\
  forall i, In i ids -> i <= fold_right Z.max seq ids.
Proof.
  induction ids as [|x ids [IH1 IH2]]; simpl.
  - split; [lia|intros i []].
  - split; [lia|]. intros i [<-|H]; [lia|]. specialize (IH2 i H). lia.
Qed.

Lemma fresh_id_gt (ids : list Z) (seq : Z) (i : Z) :
  In i ids -> i < fresh_id ids seq.
Proof.
  intros H. unfold fresh_id. destruct (fold_max_ge ids seq) as [_ G].
  specialize (G i H). lia.
Qed.

(** *** parseOrderRow *)

Lemma parseOrderRow_some (row : order) (its : json) :
  JSON.parse (to_string (items row)) = Some its ->
  parseOrderRow row
  = Some (JObj [("id", JNum (id row)); ("user_id", user_id row);
                ("restaurant_name", restaurant_name row); ("items", its);
                ("total_price", total_price row); ("status", status row);
                ("created_at", JStr (created_at row));
                ("totalPrice", total_price row); ("userId", user_id row);
                ("restaurantName", restaurant_name row);
                ("createdAt", JStr (created_at row))]).
Proof. intros H. unfold parseOrderRow. rewrite H. reflexivity. Qed.

Lemma parseOrderRow_inv (row : order) (o : json) :
  parseOrderRow row = Some o ->
  exists its, JSON.parse (to_string (items row)) = Some its /\
    o = JObj [("id", JNum (id row)); ("user_id", user_id row);
              ("restaurant_name", restaurant_name row); ("items", its);
              ("total_price", total_price row); ("status", status row);
              ("created_at", JStr (created_at row));
              ("totalPrice", total_price row); ("userId", user_id row);
              ("restaurantName", restaurant_name row);
              ("createdAt", JStr (created_at row))].
Proof.
  intros H. destruct (JSON.parse (to_string (items row))) as [its|] eqn:P.
  - exists its. split; [reflexivity|].
    rewrite (parseOrderRow_some row its P) in H. now inversion H.
  - unfold parseOrderRow in H. rewrite P in H. discriminate.
Qed.

Lemma parseOrderRow_encoded (row : order) (v : json) :
  items row = JStr (stringify v) ->
  parseOrderRow row
  = Some (JObj [("id", JNum (id row)); ("user_id", user_id row);
                ("restaurant_name", restaurant_name row); ("items", v);
                ("total_price", total_price row); ("status", status row);
                ("created_at", JStr (created_at row));
                ("totalPrice", total_price row); ("userId", user_id row);
                ("restaurantName", restaurant_name row);
                ("createdAt", JStr (created_at row))]).
Proof.
  intros H. apply parseOrderRow_some. rewrite H.
  change (to_string (JStr (stringify v))) with (stringify v).
  apply parse_stringify.
Qed.

(** *** The store *)

Lemma select_id_In (d : db) (p : json) (row : order) :
  select_id d p = Some row -> In row (rows d) /\ id_matches p (id row) = true.
Proof. unfold select_id. apply find_some. Qed.

Lemma insert_desc_In (r x : order) (l : list order) :
  In x (insert_desc r l) <-> x = r \/ In x l.
Proof.
  induction l as [|v l IH]; simpl.
  - intuition.
  - destruct (id v <=? id r); simpl; [intuition|].
    rewrite IH. intuition.
Qed.

Lemma sort_desc_In (x : order) (l : list order) :
  In x (fold_right insert_desc [] l) <-> In x l.
Proof.
  induction l as [|r l IH]; simpl; [tauto|].
  rewrite insert_desc_In, IH. intuition.
Qed.

Lemma select_all_In (d : db) (f : option string) (x : order) :
  In x (select_all d f) -> In x (rows d).
Proof.
  unfold select_all. rewrite sort_desc_In.
  destruct f; [|auto]. rewrite filter_In. tauto.
Qed.

Lemma parse_rows_reshaped (d : db) (l : list order) (os : list json) :
  (forall x, In x l -> In x (rows d)) ->
  parse_rows l = Some os -> Forall (reshaped d) os.
Proof.
  revert os. induction l as [|r l IH]; intros os Hin H.
  - inversion H. constructor.
  - unfold parse_rows in H. fold parse_rows in H.
    destruct (parseOrderRow r) as [o|] eqn:P; [|discriminate].
    destruct (parse_rows l) as [os'|]; [|discriminate].
    inversion H; subst. constructor.
    + exists r. split; [apply Hin; now left|exact P].
    + apply IH; [intros x Hx; apply Hin; now right|reflexivity].
Qed.

(** Take the handler apart along the case distinctions it makes. *)
Ltac break_match H :=
  match type of H with
  | context [match ?x with _ => _ end] =>
      lazymatch x with
      | context [match _ with _ => _ end] => fail
      | _ => destruct x eqn:?
      end
  end.

Ltac walk H := repeat (cbn in H; break_match H); cbn in H.

Lemma assoc_set_other (k k' : string) (v : json) (m : list (string * json)) :
  k' <> k -> assoc k' (set k v m) = assoc k' m.
Proof.
  intros N. induction m as [|[a b] m IH]; simpl.
  - destruct (k =? k')%string eqn:E; [|reflexivity].
    apply String.eqb_eq in E. congruence.
  - destruct (a =? k)%string eqn:E; simpl.
    + apply String.eqb_eq in E. subst a.
      destruct (k =? k')%string eqn:E'; [|reflexivity].
      apply String.eqb_eq in E'. congruence.
    + destruct (a =? k')%string; [reflexivity|exact IH].
Qed.

Lemma assoc_remove_other (k k' : string) (m : list (string * json)) :
  k' <> k -> assoc k' (remove k m) = assoc k' m.
Proof.
  intros N. induction m as [|[a b] m IH]; simpl; [reflexivity|].
  destruct (a =? k)%string eqn:E; simpl.
  - apply String.eqb_eq in E. subst a.
    destruct (k =? k')%string eqn:E'; [|exact IH].
    apply String.eqb_eq in E'. congruence.
  - destruct (a =? k')%string; [reflexivity|exact IH].
Qed.

Lemma assoc_set_opt_other (k k' : string) (o : option json)
      (m : list (string * json)) :
  k' <> k -> assoc k' (set_opt k o m) = assoc k' m.
Proof.
  intros N. destruct o; [now apply assoc_set_other|now apply assoc_remove_other].
Qed.

Lemma assoc_set_same (k : string) (v : json) (m : list (string * json)) :
  assoc k (set k v m) = Some v.
Proof.
  induction m as [|[a b] m IH]; simpl.
  - now rewrite String.eqb_refl.
  - destruct (a =? k)%string eqn:E; simpl.
    + now rewrite String.eqb_refl.
    + now rewrite E.
Qed.

(** C4. Every order the service sends out is the reshaped form of a stored
    row: userId, restaurantName, totalPrice and createdAt carry the values
    of the columns user_id, restaurant_name, total_price and created_at,
    and items carries the JSON decoding of the stored text, which for the
    encoding of a sequence of strings is that sequence. This holds for the
    data of every route: the elements of the list, the single order of GET,
    POST and PUT, and the order part of the with-user answer. *)
Theorem order_rows_are_reshaped :
  (forall row o, parseOrderRow row = Some o ->
     get "userId" o = Some (user_id row) /\
     get "restaurantName" o = Some (restaurant_name row) /\
     get "totalPrice" o = Some (total_price row) /\
     get "createdAt" o = Some (JStr (created_at row)) /\
     get "items" o = JSON.parse (to_string (items row)))
  /\ (forall row S, items row = JStr (stringify (JArr (map JStr S))) ->
        exists o, parseOrderRow row = Some o /\
                  get "items" o = Some (JArr (map JStr S)))
  /\ (forall USER_SERVICE_URL req d net fs r d' tr data,
        run (app USER_SERVICE_URL req) d net fs = (responded r, d', tr) ->
        data_of r = Some data ->
        match req with
        | GET_orders _ => exists l, data = JArr l /\ Forall (reshaped d') l
        | GET_orders_id_with_user _ =>
            exists o, reshaped d' o /\
              forall k, k <> "userDetails" -> get k data = get k o
        | DELETE_orders_id _ => False
        | _ => reshaped d' data
        end).
Proof.
  split; [|split].
  - intros row o H. destruct (parseOrderRow_inv row o H) as (its & P & ->).
    rewrite P. repeat split; reflexivity.
  - intros row S H. eexists. split; [apply (parseOrderRow_encoded _ _ H)|].
    reflexivity.
  - intros U req d net fs r d' tr data H D. unfold data_of in D.
    destruct req; unfold app, get_orders, get_orders_id,
      get_orders_id_with_user, post_orders, put_orders_id, delete_orders_id in H;
      walk H; inversion H; subst; clear H; cbn in D; try discriminate D.
    all: inversion D; subst; clear D.
    all: try match goal with
         | P : parse_rows (select_all ?d ?f) = Some ?l |- _ =>
             exists l; split; [reflexivity|];
             apply (parse_rows_reshaped d (select_all d f) l
                      (select_all_In d f) P)
         | P : parseOrderRow ?row = Some ?o,
           S : select_id ?d _ = Some ?row |- reshaped ?d ?o =>
             exists row; split; [exact (proj1 (select_id_In _ _ _ S))|exact P]
         | P : parseOrderRow ?row = Some ?o,
           S : select_id ?d _ = Some ?row |- exists _, reshaped ?d _ /\ _ =>
             exists o; split;
             [exists row; split; [exact (proj1 (select_id_In _ _ _ S))|exact P]|];
             destruct (parseOrderRow_inv _ _ P) as (its & _ & ->);
             intros k Hk; cbn [get spread];
             first [ now apply assoc_set_opt_other
                   | now apply assoc_remove_other ]
         end.
Qed.

(** *** The composite read *)



Lemma digits_segment (u : uint) :
  UserService.is_segment_tail (NilEmpty.string_of_uint u) = true.
Proof. induction u; simpl; auto. Qed.

Lemma int_of_text_segment (x : string) (n : Z) :
  int_of_text x = Some n -> UserService.is_segment x = true.
Proof.
  unfold int_of_text, UserService.is_segment.
  destruct x as [|c r]; [discriminate|].
  destruct (c =? "-")%char eqn:C.
  - apply Ascii.eqb_eq in C. subst c.
    destruct r as [|c' r']; [discriminate|].
    destruct (NilEmpty.uint_of_string (String c' r')) as [u|] eqn:U;
      [|discriminate].
    intros _. apply NilEmpty.sus in U. rewrite <- U. simpl.
    apply digits_segment.
  - destruct (NilEmpty.uint_of_string (String c r)) as [u|] eqn:U;
      [|discriminate].
    intros _. apply NilEmpty.sus in U. rewrite <- (digits_segment u), U.
    reflexivity.
Qed.

Lemma user_service_get (base : string) (ud : UserService.db) (ufs : faults)
      (x : string) :
  UserService.is_segment x = true ->
  UserService.http_get base ud ufs (base ++ "/users/" ++ x)
  = Reply (fst (UserService.get_users_id ud ufs x)).
Proof.
  intros S. unfold UserService.http_get.
  replace (base ++ "/users/" ++ x)%string
    with ((base ++ "/users") ++ String "/" x)%string
    by (now rewrite append_assoc).
  rewrite strip_prefix_append. cbn. now rewrite S.
Qed.

(** C1. For an order that is in the store and whose user the User Service
    has, GET /orders/{id}/with-user answers 200 with success and, as data,
    the fields of the order followed by userDetails; the value of
    userDetails is the data object GET /users/{order.userId} answers
    with. *)
Theorem with_user_returns_user_details
        (USER_SERVICE_URL param : string) (od : db) (ofs : faults)
        (ud : UserService.db) (ufs : faults)
        (row : order) (urow : UserService.user) :
  items_encoded od ->
  next_fault ofs = None ->
  select_id od (JStr param) = Some row ->
  UserService.db_get ud ufs (JStr (to_string (user_id row)))
  = db_ok (Some urow) ->
  exists fields userDetails,
    parseOrderRow row = Some (JObj fields)
    /\ fst (UserService.get_users_id ud ufs (to_string (user_id row)))
       = mk_response 200
           (JObj [("success", JBool true); ("data", userDetails)])
    /\ run (get_orders_id_with_user USER_SERVICE_URL param) od
         (UserService.http_get USER_SERVICE_URL ud ufs) ofs
       = (responded
            (mk_response 200
               (JObj [("success", JBool true);
                      ("data",
                       JObj (fields ++ [("userDetails", userDetails)]))])),
          od,
          [StoreRead [row];
           HttpGet (USER_SERVICE_URL ++ "/users/" ++ to_string (user_id row))]).
Proof.
  intros Henc Hf Hsel Husr.
  destruct (select_id_In _ _ _ Hsel) as [Hin _].
  unfold items_encoded in Henc. rewrite Forall_forall in Henc.
  destruct (Henc row Hin) as (v & Hv).
  pose proof (parseOrderRow_encoded row v Hv) as P.
  assert (G : fst (UserService.get_users_id ud ufs (to_string (user_id row)))
              = mk_response 200
                  (JObj [("success", JBool true);
                         ("data", UserService.row_object urow)])).
  { unfold UserService.get_users_id. rewrite Husr. reflexivity. }
  assert (S : UserService.is_segment (to_string (user_id row)) = true).
  { unfold UserService.db_get in Husr.
    destruct (next_fault ufs); [discriminate|].
    inversion Husr as [F]. apply find_some in F. destruct F as [_ F].
    unfold id_matches in F.
    destruct (int_of_text (to_string (user_id row))) as [n|] eqn:I;
      [|discriminate].
    exact (int_of_text_segment _ _ I). }
  eexists. exists (UserService.row_object urow).
  split; [exact P|]. split; [exact G|].
  unfold get_orders_id_with_user. cbn [run]. rewrite Hf, Hsel, P.
  cbn [get assoc String.eqb Ascii.eqb Bool.eqb template to_list].
  cbn [run]. rewrite (user_service_get _ _ _ _ S), G.
  reflexivity.
Qed.

Lemma with_user_returns_user_details_witness :
  exists fields userDetails,
    parseOrderRow
      (mk_order 1 (JNum 1) (JStr "Nasi Goreng Kambing")
         (JStr (stringify (JArr [JStr "Nasi Goreng Kambing";
                                 JStr "Es Teh Manis"])))
         (JNum 45000) (JStr "delivered") "2024-01-01 00:00:00")
    = Some (JObj fields)
    /\ fst (UserService.get_users_id
              (UserService.seeded "2024-01-01 00:00:00") [] "1")
       = mk_response 200
           (JObj [("success", JBool true); ("data", userDetails)])
    /\ run (get_orders_id_with_user "http://localhost:3001" "1")
         (seeded "2024-01-01 00:00:00")
         (UserService.http_get "http://localhost:3001"
            (UserService.seeded "2024-01-01 00:00:00") []) []
       = (responded
            (mk_response 200
               (JObj [("success", JBool true);
                      ("data",
                       JObj (fields ++ [("userDetails", userDetails)]))])),
          seeded "2024-01-01 00:00:00",
          [StoreRead
             [mk_order 1 (JNum 1) (JStr "Nasi Goreng Kambing")
                (JStr (stringify (JArr [JStr "Nasi Goreng Kambing";
                                        JStr "Es Teh Manis"])))
                (JNum 45000) (JStr "delivered") "2024-01-01 00:00:00"];
           HttpGet "http://localhost:3001/users/1"]).
Proof.
  refine (with_user_returns_user_details "http://localhost:3001" "1"
            (seeded "2024-01-01 00:00:00") []
            (UserService.seeded "2024-01-01 00:00:00") [] _ _ _
            eq_refl eq_refl eq_refl).
  repeat constructor; eexists; reflexivity.
Defined.

(** *** Creating an order *)

Lemma find_app_fresh (p : json) (l : list order) (row : order) :
  (forall x, In x l -> id_matches p (id x) = false) ->
  id_matches p (id row) = true ->
  find (fun r => id_matches p (id r)) (l ++ [row]) = Some row.
Proof.
  intros Hl Hr. induction l as [|x l IH]; simpl.
  - now rewrite Hr.
  - rewrite (Hl x) by now left. apply IH. intros y Hy. apply Hl. now right.
Qed.

Lemma truthy_not_null (v : json) : truthy v = true -> is_null v = false.
Proof. destruct v; simpl; congruence. Qed.

Lemma insert_truthy (d : db) (u r : json) (i : string) (t : json)
      (s : option json) :
  truthy u = true -> truthy r = true -> truthy t = true ->
  insert d (Some u) (Some r) (Some (JStr i)) (Some t) s
  = (db_ok (fresh_id (map id (rows d)) (seq d)),
     mk_db (rows d ++ [mk_order (fresh_id (map id (rows d)) (seq d)) u r
                         (JStr i) t (bind s) (clock d)])
       (fresh_id (map id (rows d)) (seq d)) (clock d)).
Proof.
  intros Hu Hr Ht. unfold insert. cbn [first_null bind].
  rewrite (truthy_not_null u Hu), (truthy_not_null r Hr),
    (truthy_not_null t Ht). reflexivity.
Qed.

Lemma select_created (d : db) (row : order) (p : json) :
  id row = fresh_id (map id (rows d)) (seq d) ->
  p = JNum (id row) \/ p = JStr (string_of_Z (id row)) ->
  select_id (mk_db (rows d ++ [row]) (id row) (clock d)) p = Some row.
Proof.
  intros Hid Hp. unfold select_id. cbn [rows].
  assert (M : forall x, id_matches p x = (id row =? x)).
  { intros x. destruct Hp as [-> | ->]; [reflexivity|].
    apply id_matches_string_of_Z. }
  apply find_app_fresh.
  - intros x Hx. rewrite M. apply Z.eqb_neq.
    pose proof (fresh_id_gt (map id (rows d)) (seq d) (id x)
                  (in_map id _ _ Hx)). lia.
  - rewrite M. apply Z.eqb_refl.
Qed.

(** The body passes validation exactly when all four fields are truthy. *)
Lemma post_orders_validation (body : json) :
  (exists k, In k required_fields /\ truthy_opt (get k body) = false) ->
  post_orders body = respond (mk_response 400 (failure "Semua field wajib diisi")).
Proof.
  intros (k & Hk & F). unfold post_orders.
  cbn in Hk. destruct Hk as [<-|[<-|[<-|[<-|[]]]]]; rewrite F; cbn;
    rewrite ?orb_true_r; reflexivity.
Qed.

(** What a run of POST /orders does once the body has passed
    validation. *)
Lemma post_orders_run (body : json) (d : db) (net : string -> reply)
      (fs : faults) (u r i t : json) :
  get "userId" body = Some u -> get "restaurantName" body = Some r ->
  get "items" body = Some i -> get "totalPrice" body = Some t ->
  truthy u = true -> truthy r = true -> truthy i = true -> truthy t = true ->
  let row := created d u r i t in
  let d' := mk_db (rows d ++ [row]) (id row) (clock d) in
  run (post_orders body) d net fs =
  match next_fault fs with
  | Some e =>
      (responded (mk_response 500 (failure_error "Error creating order" e)),
       d, [StoreWrite])
  | None =>
      match next_fault (tl fs) with
      | Some e =>
          (responded (mk_response 500
                        (failure_error "Error fetching created order" e)),
           d', [StoreWrite; StoreRead []])
      | None =>
          (responded
             (mk_response 201
                (JObj [("success", JBool true);
                       ("data",
                        JObj [("id", JNum (id row)); ("user_id", u);
                              ("restaurant_name", r); ("items", i);
                              ("total_price", t); ("status", JStr "pending");
                              ("created_at", JStr (clock d));
                              ("totalPrice", t); ("userId", u);
                              ("restaurantName", r);
                              ("createdAt", JStr (clock d))])])),
           d', [StoreWrite; StoreRead [row]])
      end
  end.
Proof.
  intros Gu Gr Gi Gt Tu Tr Ti Tt row d'.
  unfold post_orders. rewrite Gu, Gr, Gi, Gt. cbn [truthy_opt].
  rewrite Tu, Tr, Ti, Tt. cbn [negb orb option_map run].
  destruct (next_fault fs) as [e|] eqn:F; [reflexivity|].
  rewrite (insert_truthy d u r (stringify i) t _ Tu Tr Tt).
  cbn [run bind].
  destruct (next_fault (tl fs)) as [e|] eqn:F'; [reflexivity|].
  assert (S : select_id d' (JNum (fresh_id (map id (rows d)) (seq d)))
              = Some row).
  { apply (select_created d row); [reflexivity|now left]. }
  pose proof (parseOrderRow_encoded row i eq_refl) as P.
  subst row d'. unfold created in *. cbn [id] in S.
  rewrite S. cbn [run to_list]. rewrite P. reflexivity.
Qed.

Lemma post_orders_cases (body : json) :
  (exists k, In k required_fields /\ truthy_opt (get k body) = false) \/
  (exists u r i t,
     get "userId" body = Some u /\ get "restaurantName" body = Some r /\
     get "items" body = Some i /\ get "totalPrice" body = Some t /\
     truthy u = true /\ truthy r = true /\ truthy i = true /\ truthy t = true).
Proof.
  unfold required_fields.
  destruct (truthy_opt (get "userId" body)) eqn:A;
    [|left; exists "userId"; cbn; auto].
  destruct (truthy_opt (get "restaurantName" body)) eqn:B;
    [|left; exists "restaurantName"; cbn; auto].
  destruct (truthy_opt (get "items" body)) eqn:C;
    [|left; exists "items"; cbn; auto].
  destruct (truthy_opt (get "totalPrice" body)) eqn:D;
    [|left; exists "totalPrice"; cbn; auto 6].
  right.
  destruct (get "userId" body) as [u|]; [|discriminate].
  destruct (get "restaurantName" body) as [r|]; [|discriminate].
  destruct (get "items" body) as [i|]; [|discriminate].
  destruct (get "totalPrice" body) as [t|]; [|discriminate].
  exists u, r, i, t. cbn in *. auto 10.
Qed.

(** A successful POST stores one new row, answers with its reshaped form,
    and a GET of the new id on the resulting store answers the same
    object. *)
Lemma post_then_get (body : json) (d : db) (net : string -> reply)
      (fs : faults) (r : response) (d' : db) (tr : list event) :
  run (post_orders body) d net fs = (responded r, d', tr) ->
  Http.status r = 201 ->
  exists u rn i t,
    get "userId" body = Some u /\ get "restaurantName" body = Some rn /\
    get "items" body = Some i /\ get "totalPrice" body = Some t /\
    let row := created d u rn i t in
    rows d' = (rows d ++ [row])%list /\
    r = mk_response 201 (JObj [("success", JBool true);
                               ("data", created_object row i)]) /\
    forall net' fs', next_fault fs' = None ->
      run (get_orders_id (string_of_Z (id row))) d' net' fs'
      = (responded (mk_response 200
                      (JObj [("success", JBool true);
                             ("data", created_object row i)])),
         d', [StoreRead [row]]).
Proof.
  intros H St.
  destruct (post_orders_cases body) as [F|(u & rn & i & t & Gu & Gr & Gi & Gt
                                          & Tu & Tr & Ti & Tt)].
  { rewrite (post_orders_validation body F) in H. cbn in H.
    inversion H; subst. discriminate St. }
  rewrite (post_orders_run body d net fs u rn i t Gu Gr Gi Gt Tu Tr Ti Tt) in H.
  destruct (next_fault fs); [inversion H; subst; discriminate St|].
  destruct (next_fault (tl fs)); [inversion H; subst; discriminate St|].
  inversion H; subst; clear H.
  exists u, rn, i, t. repeat (split; [assumption|]).
  cbn zeta. split; [reflexivity|]. split; [reflexivity|].
  intros net' fs' F'. unfold get_orders_id. cbn [run]. rewrite F'.
  change (fresh_id (map id (rows d)) (seq d)) with (id (created d u rn i t)).
  rewrite (select_created d (created d u rn i t) _ eq_refl (or_intror eq_refl)).
  cbn [run to_list].
  rewrite (parseOrderRow_encoded (created d u rn i t) i eq_refl).
  reflexivity.
Qed.

(** C5, as amended. POST /orders answers 400 exactly when at least one of
    userId, restaurantName, items, totalPrice is missing or falsy (null,
    false, 0 or the empty string). A body in which all four are truthy
    passes validation; the answer is then 201, or 500 when the store
    reports an error. *)
Theorem post_orders_400_iff_falsy
        (body : json) (d : db) (net : string -> reply) (fs : faults)
        (o : outcome) (d' : db) (tr : list event) :
  run (post_orders body) d net fs = (o, d', tr) ->
  (status_of o = Some 400 <->
   exists k, In k required_fields /\ truthy_opt (get k body) = false)
  /\ ((forall k, In k required_fields -> truthy_opt (get k body) = true) ->
      status_of o = Some 201 \/
      (status_of o = Some 500 /\
       (next_fault fs <> None \/ next_fault (tl fs) <> None))).
Proof.
  intros H.
  destruct (post_orders_cases body) as [F|(u & rn & i & t & Gu & Gr & Gi & Gt
                                          & Tu & Tr & Ti & Tt)].
  - rewrite (post_orders_validation body F) in H. cbn in H.
    inversion H; subst; clear H. split; [split; auto|].
    intros A. destruct F as (k & Hk & F). rewrite (A k Hk) in F. discriminate.
  - rewrite (post_orders_run body d net fs u rn i t Gu Gr Gi Gt Tu Tr Ti Tt) in H.
    assert (N : ~ exists k, In k required_fields
                            /\ truthy_opt (get k body) = false).
    { intros (k & Hk & F). cbn in Hk.
      destruct Hk as [<-|[<-|[<-|[<-|[]]]]];
        rewrite ?Gu, ?Gr, ?Gi, ?Gt in F; cbn in F; congruence. }
    destruct (next_fault fs) eqn:F1;
      [|destruct (next_fault (tl fs)) eqn:F2];
      inversion H; subst; clear H; cbn;
      (split; [split; [discriminate|intros X; destruct (N X)]|]);
      intros _; first [now left | right; split; [reflexivity|]];
      [left|right]; discriminate.
Qed.

Lemma post_orders_400_iff_falsy_witness :
  status_of
    (fst (fst (run (post_orders
                      (JObj [("userId", JNum 1); ("restaurantName", JStr "");
                             ("items", JArr [JStr "Sate"]);
                             ("totalPrice", JNum 50000)]))
                 (seeded "2024-01-01 00:00:00")
                 (fun _ => NoReply "unreachable") [])))
  = Some 400.
Proof.
  apply (proj1 (post_orders_400_iff_falsy
                  (JObj [("userId", JNum 1); ("restaurantName", JStr "");
                         ("items", JArr [JStr "Sate"]);
                         ("totalPrice", JNum 50000)])
                  (seeded "2024-01-01 00:00:00")
                  (fun _ => NoReply "unreachable") [] _ _ _ eq_refl)).
  exists "restaurantName". split; [cbn; auto|reflexivity].
Defined.

(** C5, as stated, fails: a body that supplies all four fields, with
    totalPrice 0, is answered 400. *)
Lemma post_orders_zero_price_is_400 :
  (forall k, In k required_fields ->
     get k (JObj [("userId", JNum 1); ("restaurantName", JStr "Warung");
                  ("items", JArr [JStr "Air Putih"]); ("totalPrice", JNum 0)])
     <> None)
  /\ post_orders
       (JObj [("userId", JNum 1); ("restaurantName", JStr "Warung");
              ("items", JArr [JStr "Air Putih"]); ("totalPrice", JNum 0)])
     = respond (mk_response 400 (failure "Semua field wajib diisi")).
Proof.
  split; [|reflexivity].
  intros k Hk. cbn in Hk.
  destruct Hk as [<-|[<-|[<-|[<-|[]]]]]; discriminate.
Qed.

(** C6. After a successful POST /orders the stored row has status
    pending, the answer shows status pending, and so does a GET of the new
    order, whatever the body said about status. *)
Theorem created_order_is_pending
        (body : json) (d : db) (net : string -> reply) (fs : faults)
        (r : response) (d' : db) (tr : list event) :
  run (post_orders body) d net fs = (responded r, d', tr) ->
  Http.status r = 201 ->
  exists row order,
    rows d' = (rows d ++ [row])%list
    /\ status row = JStr "pending"
    /\ data_of r = Some order
    /\ get "status" order = Some (JStr "pending")
    /\ forall net' fs', next_fault fs' = None ->
         exists r',
           run (get_orders_id (string_of_Z (id row))) d' net' fs'
           = (responded r', d', [StoreRead [row]])
           /\ Http.status r' = 200
           /\ data_of r' = Some order.
Proof.
  intros H St.
  destruct (post_then_get body d net fs r d' tr H St)
    as (u & rn & i & t & _ & _ & _ & _ & Hrows & -> & Hget).
  exists (created d u rn i t), (created_object (created d u rn i t) i).
  split; [exact Hrows|]. repeat (split; [reflexivity|]).
  intros net' fs' F'. eexists. split; [exact (Hget net' fs' F')|].
  split; reflexivity.
Qed.

Lemma created_order_is_pending_witness :
  exists row order,
    rows (snd (fst (run (post_orders
                           (JObj [("userId", JNum 2);
                                  ("restaurantName", JStr "Sate Padang");
                                  ("items", JArr [JStr "Sate"; JStr "Lontong"]);
                                  ("totalPrice", JNum 50000);
                                  ("status", JStr "delivered")]))
                      (seeded "2024-01-01 00:00:00")
                      (fun _ => NoReply "unreachable") [])))
    = (rows (seeded "2024-01-01 00:00:00") ++ [row])%list
    /\ status row = JStr "pending"
    /\ get "status" order = Some (JStr "pending").
Proof.
  destruct (created_order_is_pending
              (JObj [("userId", JNum 2);
                     ("restaurantName", JStr "Sate Padang");
                     ("items", JArr [JStr "Sate"; JStr "Lontong"]);
                     ("totalPrice", JNum 50000);
                     ("status", JStr "delivered")])
              (seeded "2024-01-01 00:00:00")
              (fun _ => NoReply "unreachable") [] _ _ _ eq_refl eq_refl)
    as (row & order & A & B & _ & C & _).
  exists row, order. split; [exact A|]. split; [exact B|exact C].
Defined.

(** C7. The items of an order round-trip: when a sequence S of strings is
    sent as items on a successful POST /orders, the answer and a following
    GET of that order both carry items equal to S. *)
Theorem order_items_round_trip
        (body : json) (S : list string) (d : db) (net : string -> reply)
        (fs : faults) (r : response) (d' : db) (tr : list event) :
  get "items" body = Some (JArr (map JStr S)) ->
  run (post_orders body) d net fs = (responded r, d', tr) ->
  Http.status r = 201 ->
  exists row order,
    rows d' = (rows d ++ [row])%list
    /\ items row = JStr (stringify (JArr (map JStr S)))
    /\ JSON.parse (stringify (JArr (map JStr S))) = Some (JArr (map JStr S))
    /\ data_of r = Some order
    /\ get "items" order = Some (JArr (map JStr S))
    /\ forall net' fs', next_fault fs' = None ->
         exists r' order',
           run (get_orders_id (string_of_Z (id row))) d' net' fs'
           = (responded r', d', [StoreRead [row]])
           /\ Http.status r' = 200
           /\ data_of r' = Some order'
           /\ get "items" order' = Some (JArr (map JStr S)).
Proof.
  intros Hi H St.
  destruct (post_then_get body d net fs r d' tr H St)
    as (u & rn & i & t & _ & _ & Gi & _ & Hrows & -> & Hget).
  rewrite Hi in Gi. inversion Gi; subst i; clear Gi.
  exists (created d u rn (JArr (map JStr S)) t),
    (created_object (created d u rn (JArr (map JStr S)) t) (JArr (map JStr S))).
  split; [exact Hrows|]. split; [reflexivity|].
  split; [apply parse_stringify|]. split; [reflexivity|].
  split; [reflexivity|].
  intros net' fs' F'. eexists. eexists.
  split; [exact (Hget net' fs' F')|]. repeat split; reflexivity.
Qed.

Lemma order_items_round_trip_witness :
  exists row order,
    rows (snd (fst (run (post_orders
                           (JObj [("userId", JNum 2);
                                  ("restaurantName", JStr "Sate Padang");
                                  ("items",
                                   JArr (map JStr ["Sate Padang"; "Es Teh"]));
                                  ("totalPrice", JNum 50000)]))
                      (seeded "2024-01-01 00:00:00")
                      (fun _ => NoReply "unreachable") [])))
    = (rows (seeded "2024-01-01 00:00:00") ++ [row])%list
    /\ get "items" order = Some (JArr (map JStr ["Sate Padang"; "Es Teh"])).
Proof.
  destruct (order_items_round_trip
              (JObj [("userId", JNum 2);
                     ("restaurantName", JStr "Sate Padang");
                     ("items", JArr (map JStr ["Sate Padang"; "Es Teh"]));
                     ("totalPrice", JNum 50000)])
              ["Sate Padang"; "Es Teh"]
              (seeded "2024-01-01 00:00:00")
              (fun _ => NoReply "unreachable") [] _ _ _
              eq_refl eq_refl eq_refl)
    as (row & order & A & _ & _ & _ & B & _).
  exists row, order. split; [exact A|exact B].
Defined.

(** *** Updating an order *)

Lemma build_update_entries (body : json) :
  build_update body
  = (entry col_status body ++ entry col_restaurant_name body
     ++ entry col_items body ++ entry col_total_price body)%list.
Proof.
  unfold build_update, entry, supplied, push_if, field_name, bound.
  destruct (get "status" body) as [a|]; [destruct (truthy a)|];
    (destruct (get "restaurantName" body) as [b|]; [destruct (truthy b)|]);
    (destruct (get "items" body) as [c|]; [destruct (truthy c)|]);
    (destruct (get "totalPrice" body) as [e|]; [destruct (truthy e)|]);
    reflexivity.
Qed.

Lemma build_update_In (body : json) (c : column) (v : json) :
  In (c, v) (build_update body) ->
  exists w, supplied c body = Some w /\ v = bound c w.
Proof.
  rewrite build_update_entries, !in_app_iff. unfold entry.
  intros [H|[H|[H|H]]];
    match type of H with
    | In _ (match supplied ?k body with _ => _ end) =>
        destruct (supplied k body) as [w|] eqn:E; [|destruct H];
        destruct H as [H|[]]; inversion H; subst; eauto
    end.
Qed.

Lemma supplied_truthy (c : column) (body : json) (w : json) :
  supplied c body = Some w -> truthy w = true.
Proof.
  unfold supplied. destruct (get (field_name c) body) as [v|]; [|discriminate].
  destruct (truthy v) eqn:T; [|discriminate]. now intros [= <-].
Qed.


Lemma cell_assign (c : column) (r : order) (cv : column * json) :
  cell c (assign r cv) = if column_eqb (fst cv) c then snd cv else cell c r.
Proof. destruct cv as [[] v], c; reflexivity. Qed.

Lemma column_eqb_eq (a b : column) : column_eqb a b = true -> a = b.
Proof. destruct a, b; simpl; congruence. Qed.

Lemma cell_fold_assign (c : column) (sets : list (column * json)) (r : order) :
  cell c (fold_left assign sets r) = cell c r \/
  exists v, In (c, v) sets /\ cell c (fold_left assign sets r) = v.
Proof.
  revert r. induction sets as [|[c' v'] sets IH]; intros r; [now left|].
  cbn [fold_left]. destruct (IH (assign r (c', v'))) as [E|(v & I & E)].
  - rewrite E, cell_assign. cbn [fst snd].
    destruct (column_eqb c' c) eqn:Q; [|now left].
    apply column_eqb_eq in Q. subst c'. right. exists v'.
    split; [now left|reflexivity].
  - right. exists v. split; [now right|exact E].
Qed.

Lemma frame_fold_assign (sets : list (column * json)) (r : order) :
  id (fold_left assign sets r) = id r /\
  user_id (fold_left assign sets r) = user_id r /\
  created_at (fold_left assign sets r) = created_at r.
Proof.
  revert r. induction sets as [|[c v] sets IH]; intros r; [auto|].
  cbn [fold_left]. destruct (IH (assign r (c, v))) as (A & B & C).
  rewrite A, B, C. destruct c; auto.
Qed.

Lemma update_cases (d : db) (sets : list (column * json)) (param : string)
      (res : db_result nat) (d' : db) :
  update d sets (JStr param) = (res, d') ->
  (d' = d /\ (res = db_ok O \/ exists e, res = db_err e)) \/
  (d' = updated param sets d /\ exists n, res = db_ok (S n)).
Proof.
  unfold update.
  destruct (filter _ (rows d)) as [|m ms]; [intros [= <- <-]; auto|].
  destruct (first_null _); intros [= <- <-]; [left; eauto|].
  right. split; [reflexivity|]. cbn. eauto.
Qed.

(** The store after any run of PUT /orders/{id}. *)
Lemma put_orders_store (param : string) (body : json) (d : db)
      (net : string -> reply) (fs : faults)
      (o : outcome) (d' : db) (tr : list event) :
  run (put_orders_id param body) d net fs = (o, d', tr) ->
  d' = d \/ d' = updated param (build_update body) d.
Proof.
  unfold put_orders_id.
  destruct (List.length (build_update body) =? 0)%nat.
  { cbn. intros [= _ <- _]. now left. }
  cbn [run]. destruct (next_fault fs).
  { cbn. intros [= _ <- _]. now left. }
  destruct (update d (build_update body) (JStr param)) as [res dw] eqn:U.
  destruct (update_cases _ _ _ _ _ U) as [[-> [-> |[e ->]]]|[-> [n ->]]].
  - cbn. intros [= _ <- _]. now left.
  - cbn. intros [= _ <- _]. now left.
  - intros H. right. walk H; inversion H; reflexivity.
Qed.

Lemma map_updated (A : Type) (f : order -> A) (param : string)
      (sets : list (column * json)) (d : db) :
  (forall r, f (fold_left assign sets r) = f r) ->
  map f (rows (updated param sets d)) = map f (rows d).
Proof.
  intros H. unfold updated. cbn [rows]. rewrite map_map.
  apply map_ext. intros r. destruct (id_matches _ _); [apply H|reflexivity].
Qed.

Lemma build_update_nil (body : json) :
  (forall c, supplied c body = None) -> build_update body = [].
Proof.
  intros H. rewrite build_update_entries. unfold entry. now rewrite !H.
Qed.

Lemma put_orders_nothing_supplied (param : string) (body : json) :
  (forall c, supplied c body = None) ->
  put_orders_id param body
  = respond (mk_response 400 (failure "Tidak ada field yang diupdate")).
Proof.
  intros H. unfold put_orders_id. now rewrite (build_update_nil body H).
Qed.

Lemma column_untouched (c : column) (param : string) (body : json) (d : db) :
  supplied c body = None ->
  map (cell c) (rows (updated param (build_update body) d))
  = map (cell c) (rows d).
Proof.
  intros H. apply map_updated. intros r.
  destruct (cell_fold_assign c (build_update body) r) as [E|(v & I & _)];
    [exact E|].
  destruct (build_update_In body c v I) as (w & W & _). congruence.
Qed.

Lemma absent_not_supplied (c : column) (body : json) :
  get (field_name c) body = None -> supplied c body = None.
Proof. unfold supplied. now intros ->. Qed.

(** C9. On PUT /orders/{id} a field that is absent from the body leaves
    its column as it was in every stored row (and id, user_id and
    created_at are never written); a body with none of status,
    restaurantName, items, totalPrice is answered 400 without any
    operation on the store, which stays as it was. *)
Theorem put_orders_absent_fields_untouched
        (param : string) (body : json) (d : db) (net : string -> reply)
        (fs : faults) (o : outcome) (d' : db) (tr : list event) :
  run (put_orders_id param body) d net fs = (o, d', tr) ->
  (forall c, get (field_name c) body = None ->
     map (cell c) (rows d') = map (cell c) (rows d))
  /\ map id (rows d') = map id (rows d)
  /\ map user_id (rows d') = map user_id (rows d)
  /\ map created_at (rows d') = map created_at (rows d)
  /\ ((forall c, get (field_name c) body = None) ->
      o = responded (mk_response 400 (failure "Tidak ada field yang diupdate"))
      /\ d' = d /\ tr = []).
Proof.
  intros H.
  destruct (put_orders_store _ _ _ _ _ _ _ _ H) as [-> | ->].
  - repeat (split; [reflexivity|]).
    intros A.
    rewrite (put_orders_nothing_supplied param body
               (fun c => absent_not_supplied c body (A c))) in H.
    cbn in H. injection H; auto.
  - split; [intros c A0; apply column_untouched, absent_not_supplied, A0|].
    split; [apply map_updated; intros r; apply frame_fold_assign|].
    split; [apply map_updated; intros r; apply frame_fold_assign|].
    split; [apply map_updated; intros r; apply frame_fold_assign|].
    intros A.
    rewrite (put_orders_nothing_supplied param body
               (fun c => absent_not_supplied c body (A c))) in H.
    cbn in H. injection H; auto.
Qed.

Lemma put_orders_absent_fields_untouched_witness :
  map (cell col_total_price)
    (rows (snd (fst (run (put_orders_id "1"
                            (JObj [("status", JStr "delivered")]))
                       (seeded "2024-01-01 00:00:00")
                       (fun _ => NoReply "unreachable") []))))
  = map (cell col_total_price) (rows (seeded "2024-01-01 00:00:00")).
Proof.
  exact (proj1 (put_orders_absent_fields_untouched "1"
                  (JObj [("status", JStr "delivered")])
                  (seeded "2024-01-01 00:00:00")
                  (fun _ => NoReply "unreachable") [] _ _ _ eq_refl)
           col_total_price eq_refl).
Defined.



(** *** The items column always holds encoded JSON *)

Lemma seeded_items_encoded (now : string) : items_encoded (seeded now).
Proof. repeat constructor; eexists; reflexivity. Qed.

Lemma delete_rows (d : db) (p : json) :
  rows (snd (delete d p))
  = filter (fun r => negb (id_matches p (id r))) (rows d).
Proof. reflexivity. Qed.

(** Whatever request the service handles, and however the run goes, the
    items cells of the store stay encoded. *)
Lemma run_app_items_encoded (USER_SERVICE_URL : string) (req : request)
      (d : db) (net : string -> reply) (fs : faults)
      (o : outcome) (d' : db) (tr : list event) :
  items_encoded d ->
  run (app USER_SERVICE_URL req) d net fs = (o, d', tr) ->
  items_encoded d'.
Proof.
  intros I H. destruct req as [q|p|p|body|p body|p]; cbn [app] in H.
  - unfold get_orders in H. walk H; inversion H; subst; exact I.
  - unfold get_orders_id in H. walk H; inversion H; subst; exact I.
  - unfold get_orders_id_with_user in H. walk H; inversion H; subst; exact I.
  - destruct (post_orders_cases body)
      as [F|(u & rn & i & t & Gu & Gr & Gi & Gt & Tu & Tr & Ti & Tt)].
    + rewrite (post_orders_validation body F) in H. cbn in H.
      inversion H; subst; exact I.
    + rewrite (post_orders_run body d net fs u rn i t
                 Gu Gr Gi Gt Tu Tr Ti Tt) in H.
      assert (I' : items_encoded
                     (mk_db (rows d ++ [created d u rn i t])
                        (id (created d u rn i t)) (clock d))).
      { unfold items_encoded in *. cbn [rows]. apply Forall_app.
        split; [exact I|]. constructor; [|constructor].
        exists i. reflexivity. }
      destruct (next_fault fs); [inversion H; subst; exact I|].
      destruct (next_fault (tl fs)); inversion H; subst; exact I'.
  - destruct (put_orders_store _ _ _ _ _ _ _ _ H) as [-> | ->]; [exact I|].
    unfold items_encoded, updated in *. cbn [rows].
    rewrite Forall_forall in *. intros r' Hr'.
    apply in_map_iff in Hr'. destruct Hr' as (r & <- & Hr).
    destruct (id_matches (JStr p) (id r)); [|exact (I r Hr)].
    destruct (cell_fold_assign col_items (build_update body) r)
      as [E|(v & Hv & E)]; cbn [cell] in E; rewrite E.
    + exact (I r Hr).
    + destruct (build_update_In body _ v Hv) as (w & _ & ->). now exists w.
  - unfold delete_orders_id in H. cbn [run] in H.
    destruct (next_fault fs).
    + cbn in H. inversion H; subst; exact I.
    + assert (I' : items_encoded (snd (delete d (JStr p)))).
      { unfold items_encoded in *. rewrite delete_rows.
        rewrite Forall_forall in *. intros r Hr.
        apply filter_In in Hr. exact (I r (proj1 Hr)). }
      destruct (delete d (JStr p)) as [res dw] eqn:D. cbn [snd] in I'.
      unfold delete in D. inversion D; subst res. clear D.
      walk H; inversion H; subst; exact I'.
Qed.

End OrderServiceFacts.

(* ================================================================== *)
(** * Further properties of the Order Service *)

Module OrderServiceMore.
Import JSON Http Sql OrderService JSONFacts OrderServiceFacts.

#[local] Arguments JSON.parse : simpl never.
#[local] Arguments stringify : simpl never.
#[local] Arguments to_string : simpl never.
#[local] Arguments select_id : simpl never.
#[local] Arguments select_all : simpl never.
#[local] Arguments insert : simpl never.
#[local] Arguments update : simpl never.
#[local] Arguments delete : simpl never.
#[local] Arguments parseOrderRow : simpl never.
#[local] Arguments parse_rows : simpl never.
#[local] Arguments build_update : simpl never.
#[local] Arguments axios : simpl never.
#[local] Arguments next_fault : simpl never.
#[local] Arguments string_of_Z : simpl never.

(** *** parseOrderRow *)


(** *** Start-up *)

Lemma fresh_id_nil (s : Z) : fresh_id [] s = s + 1.
Proof. unfold fresh_id. cbn [fold_right]. lia. Qed.

Lemma fresh_id_one (s : Z) : fresh_id [s] s = s + 1.
Proof. unfold fresh_id. cbn [fold_right]. lia. Qed.

(** X2. Seeding at start-up touches only an empty table. A table with a
    row is left as it is, whatever happens; an empty table, when the
    engine does not fail, receives the two initial orders under the next
    two ids of the sequence (1 and 2 in a new file), with their items
    encoded; starting again afterwards changes nothing. *)
Theorem seed_orders_only_into_empty_table :
  (forall d fs, rows d <> [] -> initializeDatabase d fs = d)
  /\ (forall d, rows d = [] ->
        initializeDatabase d []
        = mk_db
            [mk_order (seq d + 1) (JNum 1) (JStr "Nasi Goreng Kambing")
               (JStr (stringify (JArr [JStr "Nasi Goreng Kambing";
                                       JStr "Es Teh Manis"])))
               (JNum 45000) (JStr "delivered") (clock d);
             mk_order (seq d + 2) (JNum 2) (JStr "Ayam Geprek Bensu")
               (JStr (stringify (JArr [JStr "Ayam Geprek Level 5";
                                       JStr "Jus Alpukat"])))
               (JNum 35000) (JStr "on_delivery") (clock d)]
            (seq d + 2) (clock d))
  /\ (forall d fs,
        initializeDatabase (initializeDatabase d []) fs
        = initializeDatabase d [])
  /\ (forall now, initializeDatabase (empty now) [] = seeded now).
Proof.
  assert (A : forall d fs, rows d <> [] -> initializeDatabase d fs = d).
  { intros d fs H. unfold initializeDatabase, seedInitialData.
    destruct (next_fault fs); [reflexivity|].
    destruct (next_fault (tl fs)); [reflexivity|].
    destruct (rows d); [contradiction|reflexivity]. }
  assert (B : forall d, rows d = [] ->
            initializeDatabase d []
            = mk_db
                [mk_order (seq d + 1) (JNum 1) (JStr "Nasi Goreng Kambing")
                   (JStr (stringify (JArr [JStr "Nasi Goreng Kambing";
                                           JStr "Es Teh Manis"])))
                   (JNum 45000) (JStr "delivered") (clock d);
                 mk_order (seq d + 2) (JNum 2) (JStr "Ayam Geprek Bensu")
                   (JStr (stringify (JArr [JStr "Ayam Geprek Level 5";
                                           JStr "Jus Alpukat"])))
                   (JNum 35000) (JStr "on_delivery") (clock d)]
                (seq d + 2) (clock d)).
  { intros [l s c] H. cbn [rows] in H. subst l.
    unfold initializeDatabase, seedInitialData, initialOrders, next_fault.
    cbn [tl rows List.length Nat.eqb run_each stmt_run].
    unfold next_fault, insert.
    cbn [first_null bind is_null rows seq clock map List.app snd tl].
    rewrite fresh_id_nil.
    cbn [first_null bind is_null rows seq clock map List.app snd id].
    rewrite fresh_id_one.
    replace (s + 1 + 1) with (s + 2) by lia. reflexivity. }
  split; [exact A|]. split; [exact B|]. split.
  - intros d fs. destruct (rows d) as [|r l] eqn:R.
    + apply A. rewrite (B d R). discriminate.
    + rewrite (A d []) by (rewrite R; discriminate).
      apply A. rewrite R. discriminate.
  - intros now. rewrite (B (empty now) eq_refl). reflexivity.
Qed.

(** *** Listing *)








(** *** What the routes touch *)

Ltac not_in_trace :=
  cbn; intros I;
  repeat match type of I with
    | _ \/ _ => destruct I as [I|I]
    | False => destruct I
    | _ = _ => discriminate I
    end.

(** X4. The three GET routes never write: the store is the same after the
    run and no statement that writes is issued. No route other than
    GET /orders/{id}/with-user makes an outbound call; in particular
    POST /orders stores an order without asking the User Service whether
    its user exists. *)
Theorem reads_do_not_write_and_only_with_user_calls_out
        (USER_SERVICE_URL : string) (req : request) (d : db)
        (net : string -> reply) (fs : faults)
        (o : outcome) (d' : db) (tr : list event) :
  run (app USER_SERVICE_URL req) d net fs = (o, d', tr) ->
  (reads_only req = true -> d' = d /\ ~ In StoreWrite tr)
  /\ ((forall p, req <> GET_orders_id_with_user p) ->
      forall url, ~ In (HttpGet url) tr).
Proof.
  intros H. destruct req as [q|p|p|body|p body|p]; cbn [app reads_only] in *.
  - unfold get_orders in H. walk H; inversion H; subst; clear H;
      (split; [intros _; split; [reflexivity|not_in_trace]
              |intros _ url; not_in_trace]).
  - unfold get_orders_id in H. walk H; inversion H; subst; clear H;
      (split; [intros _; split; [reflexivity|not_in_trace]
              |intros _ url; not_in_trace]).
  - unfold get_orders_id_with_user in H. walk H; inversion H; subst; clear H;
      (split; [intros _; split; [reflexivity|not_in_trace]
              |intros N; destruct (N p eq_refl)]).
  - split; [discriminate|]. intros _ url.
    destruct (post_orders_cases body)
      as [F|(u & rn & i & t & Gu & Gr & Gi & Gt & Tu & Tr & Ti & Tt)].
    + rewrite (post_orders_validation body F) in H. cbn in H.
      inversion H; subst. not_in_trace.
    + rewrite (post_orders_run body d net fs u rn i t
                 Gu Gr Gi Gt Tu Tr Ti Tt) in H.
      destruct (next_fault fs); [|destruct (next_fault (tl fs))];
        inversion H; subst; not_in_trace.
  - split; [discriminate|]. intros _ url.
    unfold put_orders_id in H.
    destruct (List.length (build_update body) =? 0)%nat;
      walk H; inversion H; subst; not_in_trace.
  - split; [discriminate|]. intros _ url.
    unfold delete_orders_id in H. walk H; inversion H; subst; not_in_trace.
Qed.

Lemma reads_do_not_write_and_only_with_user_calls_out_witness :
  ~ In (HttpGet "http://localhost:3001/users/99")
      (snd (run (app "http://localhost:3001"
                   (POST_orders
                      (JObj [("userId", JNum 99);
                             ("restaurantName", JStr "Warung");
                             ("items", JArr [JStr "Teh"]);
                             ("totalPrice", JNum 5000)])))
              (seeded "2024-01-01 00:00:00")
              (fun _ => NoReply "unreachable") [])).
Proof.
  refine (proj2 (reads_do_not_write_and_only_with_user_calls_out
                   "http://localhost:3001"
                   (POST_orders
                      (JObj [("userId", JNum 99);
                             ("restaurantName", JStr "Warung");
                             ("items", JArr [JStr "Teh"]);
                             ("totalPrice", JNum 5000)]))
                   (seeded "2024-01-01 00:00:00")
                   (fun _ => NoReply "unreachable") [] _ _ _ eq_refl)
            _ "http://localhost:3001/users/99").
  intros p. discriminate.
Defined.

(** *** Reading one order *)



(** *** Deleting *)

#[local] Arguments id_matches : simpl never.

Lemma find_none_filter {A : Type} (f : A -> bool) (l : list A) :
  find f l = None ->
  filter f l = [] /\ filter (fun x => negb (f x)) l = l.
Proof.
  induction l as [|x l IH]; cbn [find filter]; [auto|].
  destruct (f x); [discriminate|]. intros H. destruct (IH H) as [E1 E2].
  cbn. now rewrite E1, E2.
Qed.

Lemma find_some_filter {A : Type} (f : A -> bool) (l : list A) (x : A) :
  find f l = Some x -> filter f l <> [].
Proof.
  intros H E. apply find_some in H. destruct H as [Hin Hf].
  assert (I : In x (filter f l)) by (apply filter_In; auto).
  rewrite E in I. destruct I.
Qed.




(** *** Updating *)

Lemma build_update_not_null (body : json) (c : column) (v : json) :
  In (c, v) (build_update body) -> is_null v = false.
Proof.
  intros H. destruct (build_update_In body c v H) as (w & W & ->).
  pose proof (supplied_truthy c body w W) as T.
  destruct c; cbn [bound]; try reflexivity; now apply truthy_not_null.
Qed.

Lemma first_null_none (cols : list (string * json)) :
  (forall c v, In (c, v) cols -> is_null v = false) -> first_null cols = None.
Proof.
  induction cols as [|[c v] cols IH]; intros H; [reflexivity|].
  cbn [first_null]. rewrite (H c v) by now left.
  apply IH. intros c' v' I. apply (H c' v'). now right.
Qed.

Lemma update_accepts (d : db) (body : json) (param : string) :
  update d (build_update body) (JStr param)
  = match filter (fun r => id_matches (JStr param) (id r)) (rows d) with
    | [] => (db_ok O, d)
    | m :: ms =>
        (db_ok (S (List.length ms)), updated param (build_update body) d)
    end.
Proof.
  unfold update.
  destruct (filter (fun r => id_matches (JStr param) (id r)) (rows d))
    as [|m ms]; [reflexivity|].
  rewrite first_null_none; [reflexivity|].
  intros c v I. apply in_map_iff in I. destruct I as ([c' v'] & E & I).
  inversion E; subst. apply filter_In in I. destruct I as [I _].
  exact (build_update_not_null body c' v I).
Qed.



Lemma cell_after_update (body : json) (c : column) (row : order) :
  cell c (fold_left assign (build_update body) row)
  = match supplied c body with
    | Some w => bound c w
    | None => cell c row
    end.
Proof.
  rewrite build_update_entries. unfold entry.
  destruct c;
    destruct (supplied col_status body), (supplied col_restaurant_name body),
      (supplied col_items body), (supplied col_total_price body);
    reflexivity.
Qed.

Lemma select_updated (param : string) (sets : list (column * json)) (d : db) :
  select_id (updated param sets d) (JStr param)
  = option_map (fold_left assign sets) (select_id d (JStr param)).
Proof.
  unfold select_id, updated. cbn [rows].
  induction (rows d) as [|x l IH]; [reflexivity|].
  cbn [map find]. destruct (id_matches (JStr param) (id x)) eqn:M.
  - rewrite (proj1 (frame_fold_assign sets x)), M. reflexivity.
  - rewrite M. exact IH.
Qed.




(** *** The composite read when the User Service does not deliver *)

(** X9. When the order is found but the call to the User Service fails
    (no answer, or an answer outside 2xx), GET /orders/{id}/with-user
    answers 500 with the message of the failed call; nothing is retried
    and the store is unchanged. *)
Theorem with_user_is_500_when_the_call_fails
        (USER_SERVICE_URL param : string) (d : db) (net : string -> reply)
        (fs : faults) (row : order) (e : axios_error) :
  items_encoded d ->
  next_fault fs = None ->
  select_id d (JStr param) = Some row ->
  axios (net (USER_SERVICE_URL ++ "/users/" ++ to_string (user_id row)))
  = inr e ->
  run (get_orders_id_with_user USER_SERVICE_URL param) d net fs
  = (responded (mk_response 500
                  (failure_error "Gagal mengambil data user"
                     (error_message e))),
     d,
     [StoreRead [row];
      HttpGet (USER_SERVICE_URL ++ "/users/" ++ to_string (user_id row))]).
Proof.
  intros I F S E.
  destruct (select_id_In _ _ _ S) as [Hin _].
  unfold items_encoded in I. rewrite Forall_forall in I.
  destruct (I row Hin) as (v & Hv).
  unfold get_orders_id_with_user. cbn [run]. rewrite F, S.
  rewrite (parseOrderRow_encoded row v Hv).
  cbn [get assoc String.eqb Ascii.eqb Bool.eqb template to_list run].
  rewrite E. reflexivity.
Qed.

Lemma with_user_is_500_when_the_call_fails_witness :
  run (get_orders_id_with_user "http://localhost:3001" "1")
    (seeded "2024-01-01 00:00:00") (fun _ => NoReply "connect ECONNREFUSED")
    []
  = (responded (mk_response 500
                  (failure_error "Gagal mengambil data user"
                     "connect ECONNREFUSED")),
     seeded "2024-01-01 00:00:00",
     [StoreRead
        [mk_order 1 (JNum 1) (JStr "Nasi Goreng Kambing")
           (JStr (stringify (JArr [JStr "Nasi Goreng Kambing";
                                   JStr "Es Teh Manis"])))
           (JNum 45000) (JStr "delivered") "2024-01-01 00:00:00"];
      HttpGet "http://localhost:3001/users/1"]).
Proof.
  exact (with_user_is_500_when_the_call_fails "http://localhost:3001" "1"
           (seeded "2024-01-01 00:00:00")
           (fun _ => NoReply "connect ECONNREFUSED") [] _
           (mk_error None "connect ECONNREFUSED")
           ltac:(repeat constructor; eexists; reflexivity)
           eq_refl eq_refl eq_refl).
Defined.



(** *** What a POST stores *)

Lemma post_orders_appends_the_order_as_supplied_aux
      (body : json) (d : db) (net : string -> reply) (fs : faults)
      (o : outcome) (d' : db) (tr : list event) :
  run (post_orders body) d net fs = (o, d', tr) ->
  d' = d
  \/ exists row,
       rows d' = (rows d ++ [row])%list /\ seq d' = id row
       /\ seq d < id row /\ Forall (fun x => id x < id row) (rows d).
Proof.
  intros H.
  destruct (post_orders_cases body)
    as [F|(u & rn & i & t & Gu & Gr & Gi & Gt & Tu & Tr & Ti & Tt)].
  { rewrite (post_orders_validation body F) in H. cbn in H.
    inversion H; subst. now left. }
  rewrite (post_orders_run body d net fs u rn i t Gu Gr Gi Gt Tu Tr Ti Tt) in H.
  assert (R : exists row,
     rows (mk_db (rows d ++ [created d u rn i t])
             (id (created d u rn i t)) (clock d))
     = (rows d ++ [row])%list
     /\ seq (mk_db (rows d ++ [created d u rn i t])
               (id (created d u rn i t)) (clock d)) = id row
     /\ seq d < id row
     /\ Forall (fun x => id x < id row) (rows d)).
  { exists (created d u rn i t). cbn [rows seq clock].
    split; [reflexivity|]. split; [reflexivity|]. split.
    - unfold created. cbn [id]. unfold fresh_id.
      destruct (fold_max_ge (map id (rows d)) (seq d)) as [G _]. lia.
    - rewrite Forall_forall. intros x Hx. unfold created. cbn [id].
      apply fresh_id_gt. now apply in_map. }
  destruct (next_fault fs); [inversion H; subst; now left|].
  destruct (next_fault (tl fs)); inversion H; subst; right; exact R.
Qed.





(** *** Invariants of the table *)

Lemma NoDup_map_filter {A B : Type} (f : A -> B) (g : A -> bool) (l : list A) :
  NoDup (map f l) -> NoDup (map f (filter g l)).
Proof.
  induction l as [|x l IH]; cbn [map filter]; [auto|].
  intros N. inversion N as [|? ? Hx Hl]; subst.
  destruct (g x); [|auto]. cbn [map]. constructor; [|auto].
  intros I. apply Hx. apply in_map_iff in I. destruct I as (y & E & I).
  apply filter_In in I. apply in_map_iff. exists y. tauto.
Qed.

Lemma ids_ok_map (d : db) :
  ids_ok d <->
  NoDup (map id (rows d)) /\ Forall (fun i => i <= seq d) (map id (rows d)).
Proof. unfold ids_ok. now rewrite Forall_map. Qed.

(** X13. Every route keeps the ids of the table in order, however the run
    ends: the ids stay pairwise distinct, none is above the sequence, and
    the sequence never goes back, so that an id is not handed out twice,
    even after its order was deleted. *)
Theorem routes_keep_ids_in_order
        (USER_SERVICE_URL : string) (req : request) (d : db)
        (net : string -> reply) (fs : faults)
        (o : outcome) (d' : db) (tr : list event) :
  ids_ok d ->
  run (app USER_SERVICE_URL req) d net fs = (o, d', tr) ->
  ids_ok d' /\ seq d <= seq d'.
Proof.
  intros I H. destruct req as [q|p|p|body|p body|p]; cbn [app] in H.
  - unfold get_orders in H.
    walk H; inversion H; subst; (split; [exact I|lia]).
  - unfold get_orders_id in H.
    walk H; inversion H; subst; (split; [exact I|lia]).
  - unfold get_orders_id_with_user in H.
    walk H; inversion H; subst; (split; [exact I|lia]).
  - destruct (post_orders_appends_the_order_as_supplied_aux body d net fs
                o d' tr H) as [-> |(row & R & Sq & Lt & All)];
      [split; [exact I|lia]|].
    split; [|lia]. destruct I as [N B]. unfold ids_ok. rewrite R, Sq.
    rewrite map_app. cbn [map]. split.
    + apply NoDup_app; [exact N|repeat constructor; intros []|].
      intros x Hx [<-|[]]. apply in_map_iff in Hx.
      destruct Hx as (y & E & Hy). rewrite Forall_forall in All.
      specialize (All y Hy). lia.
    + apply Forall_app. split; [|repeat constructor; lia].
      eapply Forall_impl; [|exact All]. cbn. intros; lia.
  - destruct (put_orders_store _ _ _ _ _ _ _ _ H) as [-> | ->];
      [split; [exact I|lia]|].
    split; [|cbn; lia]. apply ids_ok_map. apply ids_ok_map in I.
    cbn [seq updated].
    rewrite (map_updated _ id p (build_update body) d
               (fun r => proj1 (frame_fold_assign _ r))).
    exact I.
  - unfold delete_orders_id in H. cbn [run] in H.
    destruct (next_fault fs).
    + cbn in H. inversion H; subst. split; [exact I|lia].
    + assert (I' : ids_ok (snd (delete d (JStr p)))
                   /\ seq d <= seq (snd (delete d (JStr p)))).
      { unfold delete. cbn [snd]. split; [|cbn; lia].
        destruct I as [N B]. split; cbn [rows seq].
        - now apply NoDup_map_filter.
        - rewrite Forall_forall in *. intros r Hr.
          apply filter_In in Hr. exact (B r (proj1 Hr)). }
      destruct (delete d (JStr p)) as [res dw] eqn:D. cbn [snd] in I'.
      unfold delete in D. inversion D; subst res. clear D.
      walk H; inversion H; subst; exact I'.
Qed.

Lemma routes_keep_ids_in_order_witness :
  ids_ok (snd (fst (run (app "http://localhost:3001" (DELETE_orders_id "1"))
                      (seeded "2024-01-01 00:00:00")
                      (fun _ => NoReply "unreachable") [])))
  /\ seq (seeded "2024-01-01 00:00:00")
     <= seq (snd (fst (run (app "http://localhost:3001" (DELETE_orders_id "1"))
                         (seeded "2024-01-01 00:00:00")
                         (fun _ => NoReply "unreachable") []))).
Proof.
  refine (routes_keep_ids_in_order "http://localhost:3001"
            (DELETE_orders_id "1") (seeded "2024-01-01 00:00:00")
            (fun _ => NoReply "unreachable") [] _ _ _ _ eq_refl).
  split.
  - repeat constructor; cbn; intuition discriminate.
  - repeat constructor; cbn; lia.
Defined.

Lemma parse_rows_encoded (l : list order) :
  Forall (fun r => exists v, items r = JStr (stringify v)) l ->
  exists os, parse_rows l = Some os.
Proof.
  induction 1 as [|r l (v & Hv) Hl (os & IH)]; [now exists []|].
  unfold parse_rows. fold parse_rows.
  rewrite (parseOrderRow_encoded r v Hv), IH. eauto.
Qed.

Lemma parseOrderRow_of_encoded (d : db) (p : json) (row : order) :
  items_encoded d -> select_id d p = Some row -> parseOrderRow row <> None.
Proof.
  intros I S. destruct (select_id_In _ _ _ S) as [Hin _].
  unfold items_encoded in I. rewrite Forall_forall in I.
  destruct (I row Hin) as (v & Hv).
  rewrite (parseOrderRow_encoded row v Hv). discriminate.
Qed.

(** X14. On a store whose items cells are encoded JSON (as the seed and
    every write of the service leave them) no handler dies: every run, of
    every route and whatever the engine and the User Service do, ends with
    a response, and the items cells are still encoded afterwards. *)
Theorem encoded_store_always_answers
        (USER_SERVICE_URL : string) (req : request) (d : db)
        (net : string -> reply) (fs : faults)
        (o : outcome) (d' : db) (tr : list event) :
  items_encoded d ->
  run (app USER_SERVICE_URL req) d net fs = (o, d', tr) ->
  (exists r, o = responded r) /\ items_encoded d'.
Proof.
  intros I H. split; [|exact (run_app_items_encoded _ _ _ _ _ _ _ _ I H)].
  destruct req as [q|p|p|body|p body|p]; cbn [app] in H.
  - unfold get_orders in H. cbn [run] in H.
    destruct (next_fault fs); [cbn in H; inversion H; eauto|].
    match type of H with
    | context [select_all d ?f] =>
        destruct (parse_rows_encoded (select_all d f)) as (os & P)
    end.
    { unfold items_encoded in I. rewrite Forall_forall in *.
      intros x Hx. apply I. exact (select_all_In _ _ _ Hx). }
    rewrite P in H. cbn in H. inversion H; eauto.
  - unfold get_orders_id in H. cbn [run] in H.
    destruct (next_fault fs); [cbn in H; inversion H; eauto|].
    destruct (select_id d (JStr p)) as [row|] eqn:S;
      [|cbn in H; inversion H; eauto].
    pose proof (parseOrderRow_of_encoded d _ row I S) as P.
    destruct (parseOrderRow row); [|contradiction].
    cbn in H; inversion H; eauto.
  - unfold get_orders_id_with_user in H. cbn [run] in H.
    destruct (next_fault fs); [cbn in H; inversion H; eauto|].
    destruct (select_id d (JStr p)) as [row|] eqn:S;
      [|cbn in H; inversion H; eauto].
    pose proof (parseOrderRow_of_encoded d _ row I S) as P.
    destruct (parseOrderRow row); [|contradiction].
    walk H; inversion H; eauto.
  - destruct (post_orders_cases body)
      as [F|(u & rn & i & t & Gu & Gr & Gi & Gt & Tu & Tr & Ti & Tt)].
    + rewrite (post_orders_validation body F) in H. cbn in H.
      inversion H; eauto.
    + rewrite (post_orders_run body d net fs u rn i t
                 Gu Gr Gi Gt Tu Tr Ti Tt) in H.
      destruct (next_fault fs); [|destruct (next_fault (tl fs))];
        inversion H; eauto.
  - unfold put_orders_id in H.
    destruct (List.length (build_update body) =? 0)%nat;
      [cbn in H; inversion H; eauto|].
    cbn [run] in H.
    destruct (next_fault fs); [cbn in H; inversion H; eauto|].
    rewrite update_accepts in H.
    destruct (select_id d (JStr p)) as [row|] eqn:S.
    + pose proof (find_some_filter _ _ _ S) as NF.
      destruct (filter (fun r => id_matches (JStr p) (id r)) (rows d))
        as [|m ms]; [contradiction|].
      cbn [run Nat.eqb] in H.
      destruct (next_fault (tl fs)); [cbn in H; inversion H; eauto|].
      rewrite select_updated, S in H. cbn [option_map run] in H.
      assert (E : exists v, items (fold_left assign (build_update body) row)
                            = JStr (stringify v)).
      { pose proof (cell_after_update body col_items row) as C.
        cbn [cell] in C. rewrite C.
        destruct (supplied col_items body) as [w|]; [now exists w|].
        destruct (select_id_In _ _ _ S) as [Hin _].
        unfold items_encoded in I. rewrite Forall_forall in I.
        exact (I row Hin). }
      destruct E as (v & Hv).
      rewrite (parseOrderRow_encoded _ v Hv) in H.
      cbn in H. inversion H; eauto.
    + destruct (find_none_filter _ _ S) as [A _]. rewrite A in H.
      cbn in H. inversion H; eauto.
  - unfold delete_orders_id in H. walk H; inversion H; eauto.
Qed.

Lemma encoded_store_always_answers_witness :
  (exists r,
     fst (fst (run (app "http://localhost:3001" (GET_orders None))
                 (seeded "2024-01-01 00:00:00")
                 (fun _ => NoReply "unreachable") [])) = responded r)
  /\ items_encoded
       (snd (fst (run (app "http://localhost:3001" (GET_orders None))
                    (seeded "2024-01-01 00:00:00")
                    (fun _ => NoReply "unreachable") []))).
Proof.
  refine (encoded_store_always_answers "http://localhost:3001"
            (GET_orders None) (seeded "2024-01-01 00:00:00")
            (fun _ => NoReply "unreachable") [] _ _ _ _ eq_refl).
  repeat constructor; eexists; reflexivity.
Defined.

End OrderServiceMore.

(* ================================================================== *)
(** * Further properties of the User Service *)

Module UserServiceMore.
Import JSON Http Sql UserService JSONFacts UserServiceFacts.

Lemma eqb_refl (v : json) : JSON.eqb v v = true.
Proof.
  induction v as [|b|n|s|l IH|m IH] using json_nested_ind; simpl.
  - reflexivity.
  - now destruct b.
  - apply Z.eqb_refl.
  - apply String.eqb_refl.
  - induction IH as [|x l Hx Hl IH]; [reflexivity|].
    rewrite Hx. exact IH.
  - induction IH as [|[k x] m Hx Hm IH]; [reflexivity|].
    cbn [snd] in Hx. rewrite String.eqb_refl, Hx. exact IH.
Qed.

Lemma eqb_eq (a b : json) : JSON.eqb a b = true -> a = b.
Proof.
  revert b.
  induction a as [|x|n|s|l IH|m IH] using json_nested_ind;
    intros [|y|n'|s'|l'|m']; simpl; try discriminate.
  - reflexivity.
  - intros H. apply Bool.eqb_prop in H. now subst.
  - intros H. apply Z.eqb_eq in H. now subst.
  - intros H. apply String.eqb_eq in H. now subst.
  - intros H. f_equal. revert l' H.
    induction IH as [|x l Hx Hl IH]; intros [|y l']; try discriminate;
      [reflexivity|].
    intros H. apply andb_true_iff in H. destruct H as [H1 H2].
    f_equal; [exact (Hx y H1)|exact (IH l' H2)].
  - intros H. f_equal. revert m' H.
    induction IH as [|[k x] m Hx Hm IH]; intros [|[k' y] m'];
      try discriminate; [reflexivity|].
    intros H. apply andb_true_iff in H. destruct H as [H1 H2].
    apply andb_true_iff in H1. destruct H1 as [H0 H1].
    apply String.eqb_eq in H0. subst k'. cbn [snd] in Hx.
    f_equal; [f_equal; exact (Hx y H1)|exact (IH m' H2)].
Qed.

#[local] Arguments next_fault : simpl never.
#[local] Arguments id_matches : simpl never.
#[local] Arguments string_of_Z : simpl never.
#[local] Arguments JSON.eqb : simpl never.

Lemma email_taken_iff (e : json) (l : list user) :
  email_taken e l = false -> forall u, In u l -> email u <> e.
Proof.
  unfold email_taken. intros H u Hu E.
  assert (T : existsb (fun u => JSON.eqb (email u) e) l = true).
  { apply existsb_exists. exists u. split; [exact Hu|].
    rewrite E. apply eqb_refl. }
  congruence.
Qed.

Lemma email_taken_In (e : json) (l : list user) (u : user) :
  In u l -> email u = e -> email_taken e l = true.
Proof.
  intros Hu E. unfold email_taken. apply existsb_exists. exists u.
  split; [exact Hu|]. rewrite E. apply eqb_refl.
Qed.

(** *** Creating a user *)

Lemma post_users_cases (body : json) :
  (exists k, In k user_fields /\ truthy_opt (get k body) = false) \/
  (exists n e p a,
     get "name" body = Some n /\ get "email" body = Some e /\
     get "phone" body = Some p /\ get "address" body = Some a /\
     truthy n = true /\ truthy e = true /\ truthy p = true /\ truthy a = true).
Proof.
  unfold user_fields.
  destruct (truthy_opt (get "name" body)) eqn:A;
    [|left; exists "name"; cbn; auto].
  destruct (truthy_opt (get "email" body)) eqn:B;
    [|left; exists "email"; cbn; auto].
  destruct (truthy_opt (get "phone" body)) eqn:C;
    [|left; exists "phone"; cbn; auto].
  destruct (truthy_opt (get "address" body)) eqn:D;
    [|left; exists "address"; cbn; auto 6].
  right.
  destruct (get "name" body) as [n|]; [|discriminate].
  destruct (get "email" body) as [e|]; [|discriminate].
  destruct (get "phone" body) as [p|]; [|discriminate].
  destruct (get "address" body) as [a|]; [|discriminate].
  exists n, e, p, a. cbn in *. auto 10.
Qed.

Lemma post_users_rejected (d : db) (fs : faults) (body : json) :
  (exists k, In k user_fields /\ truthy_opt (get k body) = false) ->
  post_users d fs body
  = (mk_response 400 (failure "Semua field wajib diisi"), d).
Proof.
  intros (k & Hk & F). unfold post_users.
  cbn in Hk. destruct Hk as [<-|[<-|[<-|[<-|[]]]]]; rewrite F; cbn;
    rewrite ?orb_true_r; reflexivity.
Qed.

Lemma truthy_is_not_null (v : json) : truthy v = true -> is_null v = false.
Proof. destruct v; simpl; congruence. Qed.

Lemma find_app_new (p : json) (l : list user) (u : user) :
  (forall x, In x l -> id_matches p (id x) = false) ->
  id_matches p (id u) = true ->
  find (fun r => id_matches p (id r)) (l ++ [u]) = Some u.
Proof.
  intros Hl Hu. induction l as [|x l IH]; cbn [List.app find].
  - now rewrite Hu.
  - rewrite (Hl x) by now left. apply IH. intros y Hy. apply Hl. now right.
Qed.

Lemma find_created (d : db) (u : user) (p : json) :
  id u = fresh_id (map id (rows d)) (seq d) ->
  p = JNum (id u) \/ p = JStr (string_of_Z (id u)) ->
  find (fun r => id_matches p (id r)) (rows d ++ [u]) = Some u.
Proof.
  intros Hid Hp.
  assert (M : forall x, id_matches p x = (id u =? x)).
  { intros x. destruct Hp as [-> | ->]; [reflexivity|].
    apply OrderServiceFacts.id_matches_string_of_Z. }
  apply find_app_new.
  - intros x Hx. rewrite M. apply Z.eqb_neq.
    pose proof (OrderServiceFacts.fresh_id_gt (map id (rows d)) (seq d) (id x)
                  (in_map id _ _ Hx)). lia.
  - rewrite M. apply Z.eqb_refl.
Qed.

(** What POST /users does once the body has passed validation. *)
Lemma post_users_run (d : db) (fs : faults) (body : json) (n e p a : json) :
  get "name" body = Some n -> get "email" body = Some e ->
  get "phone" body = Some p -> get "address" body = Some a ->
  truthy n = true -> truthy e = true -> truthy p = true -> truthy a = true ->
  let u := created d n e p a in
  let d' := mk_db (rows d ++ [u]) (id u) (clock d) in
  post_users d fs body =
  match next_fault fs with
  | Some err => (mk_response 500 (failure_error "Error creating user" err), d)
  | None =>
      if email_taken e (rows d)
      then (mk_response 500
              (failure_error "Error creating user"
                 (unique_failed "users" "email")), d)
      else
        match next_fault (tl fs) with
        | Some err =>
            (mk_response 500
               (failure_error "Error fetching created user" err), d')
        | None =>
            (mk_response 201
               (JObj [("success", JBool true); ("data", row_object u)]), d')
        end
  end.
Proof.
  intros Gn Ge Gp Ga Tn Te Tp Ta u d'.
  unfold post_users. rewrite Gn, Ge, Gp, Ga. cbn [truthy_opt].
  rewrite Tn, Te, Tp, Ta. cbn [negb orb]. unfold db_run_insert.
  destruct (next_fault fs) as [err|]; [reflexivity|].
  cbn [first_null bind].
  rewrite (truthy_is_not_null n Tn), (truthy_is_not_null e Te),
    (truthy_is_not_null p Tp), (truthy_is_not_null a Ta).
  destruct (email_taken e (rows d)); [reflexivity|].
  unfold db_get. destruct (next_fault (tl fs)); [reflexivity|].
  cbn [rows].
  pose proof (find_created d u (JNum (id u)) eq_refl (or_introl eq_refl))
    as S.
  subst u d'. unfold created in *. cbn [id] in S. rewrite S. reflexivity.
Qed.

(** X15. POST /users answers 400 exactly when one of name, email, phone,
    address is missing or falsy (null, false, 0, the empty string), and
    then does not touch the store. *)
Theorem post_users_400_iff_falsy
        (d : db) (fs : faults) (body : json) (r : response) (d' : db) :
  post_users d fs body = (r, d') ->
  (Http.status r = 400 <->
   exists k, In k user_fields /\ truthy_opt (get k body) = false)
  /\ (Http.status r = 400 -> d' = d).
Proof.
  intros H.
  destruct (post_users_cases body)
    as [F|(n & e & p & a & Gn & Ge & Gp & Ga & Tn & Te & Tp & Ta)].
  - rewrite (post_users_rejected d fs body F) in H. inversion H; subst.
    cbn. tauto.
  - assert (N : ~ exists k, In k user_fields
                            /\ truthy_opt (get k body) = false).
    { intros (k & Hk & F). cbn in Hk.
      destruct Hk as [<-|[<-|[<-|[<-|[]]]]];
        rewrite ?Gn, ?Ge, ?Gp, ?Ga in F; cbn in F; congruence. }
    rewrite (post_users_run d fs body n e p a Gn Ge Gp Ga Tn Te Tp Ta) in H.
    destruct (next_fault fs); [|destruct (email_taken e (rows d));
                                [|destruct (next_fault (tl fs))]];
      inversion H; subst; cbn;
      (split; [split; [discriminate|intros X; destruct (N X)]|discriminate]).
Qed.

Lemma post_users_400_iff_falsy_witness :
  Http.status (fst (post_users (seeded "2024-01-01 00:00:00") []
                      (JObj [("name", JStr "Budi"); ("email", JStr "b@x");
                             ("phone", JStr ""); ("address", JStr "Jl. A")])))
  = 400.
Proof.
  apply (proj1 (post_users_400_iff_falsy (seeded "2024-01-01 00:00:00") []
                  (JObj [("name", JStr "Budi"); ("email", JStr "b@x");
                         ("phone", JStr ""); ("address", JStr "Jl. A")])
                  _ _ eq_refl)).
  exists "phone". split; [cbn; auto|reflexivity].
Defined.

(** X16. POST /users with an email that a stored user already has is
    refused by the store: the answer is 500 with the UNIQUE failure as
    error, and the table is unchanged. *)
Theorem post_users_duplicate_email_is_500
        (d : db) (fs : faults) (body : json) (e : json) (u : user) :
  next_fault fs = None ->
  (forall k, In k user_fields -> truthy_opt (get k body) = true) ->
  get "email" body = Some e ->
  In u (rows d) -> email u = e ->
  post_users d fs body
  = (mk_response 500
       (failure_error "Error creating user" (unique_failed "users" "email")),
     d).
Proof.
  intros F T Ge Hu E.
  destruct (post_users_cases body)
    as [(k & Hk & X)|(n & e' & p & a & Gn & Ge' & Gp & Ga & Tn & Te & Tp & Ta)].
  { rewrite (T k Hk) in X. discriminate. }
  rewrite Ge in Ge'. inversion Ge'; subst e'.
  rewrite (post_users_run d fs body n e p a Gn Ge Gp Ga Tn Te Tp Ta).
  rewrite F, (email_taken_In e (rows d) u Hu E). reflexivity.
Qed.

Lemma post_users_duplicate_email_is_500_witness :
  post_users (seeded "2024-01-01 00:00:00") []
    (JObj [("name", JStr "Johnny"); ("email", JStr "john@example.com");
           ("phone", JStr "0811"); ("address", JStr "Jl. C")])
  = (mk_response 500
       (failure_error "Error creating user" (unique_failed "users" "email")),
     seeded "2024-01-01 00:00:00").
Proof.
  refine (post_users_duplicate_email_is_500 (seeded "2024-01-01 00:00:00") []
            (JObj [("name", JStr "Johnny"); ("email", JStr "john@example.com");
                   ("phone", JStr "0811"); ("address", JStr "Jl. C")])
            (JStr "john@example.com")
            (mk_user 1 (JStr "John Doe") (JStr "john@example.com")
               (JStr "081234567890") (JStr "Jl. Sudirman No. 1, Jakarta")
               "2024-01-01 00:00:00")
            eq_refl _ eq_refl _ eq_refl).
  - intros k Hk. cbn in Hk.
    destruct Hk as [<-|[<-|[<-|[<-|[]]]]]; reflexivity.
  - cbn. auto.
Defined.



(** *** Listing, deleting, updating *)

Lemma insert_asc_perm (u : user) (l : list user) :
  Permutation (insert_asc u l) (u :: l).
Proof.
  induction l as [|v l IH]; cbn [insert_asc]; [reflexivity|].
  destruct (id u <=? id v); [reflexivity|].
  rewrite IH. apply perm_swap.
Qed.

Lemma insert_asc_In (u x : user) (l : list user) :
  In x (insert_asc u l) <-> x = u \/ In x l.
Proof.
  split; intros H.
  - apply (Permutation_in _ (insert_asc_perm u l)) in H.
    destruct H as [<-|H]; auto.
  - apply (Permutation_in _ (Permutation_sym (insert_asc_perm u l))).
    destruct H as [->|H]; [now left|now right].
Qed.

Lemma insert_asc_sorted (u : user) (l : list user) :
  StronglySorted (fun a b => id a <= id b) l ->
  StronglySorted (fun a b => id a <= id b) (insert_asc u l).
Proof.
  induction 1 as [|v l Hl IH Hv]; cbn [insert_asc].
  - repeat constructor.
  - destruct (id u <=? id v) eqn:C.
    + apply Z.leb_le in C. constructor; [now constructor|].
      constructor; [exact C|].
      eapply Forall_impl; [|exact Hv]. cbn. intros; lia.
    + apply Z.leb_gt in C. constructor; [exact IH|].
      rewrite Forall_forall in *. intros x Hx.
      apply insert_asc_In in Hx. destruct Hx as [-> | Hx]; [lia|auto].
Qed.

(** X18. A successful GET /users lists every stored user exactly once, as
    stored, by id from the lowest to the highest, and leaves the store as
    it was. *)
Theorem get_users_lists_all_by_id
        (d : db) (fs : faults) (r : response) (d' : db) :
  get_users d fs = (r, d') ->
  Http.status r = 200 ->
  exists l,
    body r = JObj [("success", JBool true);
                   ("data", JArr (map row_object l))]
    /\ StronglySorted (fun a b => id a <= id b) l
    /\ Permutation l (rows d)
    /\ d' = d.
Proof.
  unfold get_users, db_all. intros H St.
  destruct (next_fault fs); inversion H; subst; [discriminate St|].
  exists (fold_right insert_asc [] (rows d')).
  split; [reflexivity|]. clear St H. split; [|split; [|reflexivity]].
  - induction (rows d') as [|u l IH]; cbn [fold_right]; [constructor|].
    now apply insert_asc_sorted.
  - induction (rows d') as [|u l IH]; cbn [fold_right]; [reflexivity|].
    rewrite insert_asc_perm. now constructor.
Qed.

Lemma get_users_lists_all_by_id_witness :
  exists l,
    body (fst (get_users (seeded "2024-01-01 00:00:00") []))
    = JObj [("success", JBool true); ("data", JArr (map row_object l))]
    /\ StronglySorted (fun a b => id a <= id b) l
    /\ Permutation l (rows (seeded "2024-01-01 00:00:00"))
    /\ snd (get_users (seeded "2024-01-01 00:00:00") [])
       = seeded "2024-01-01 00:00:00".
Proof.
  exact (get_users_lists_all_by_id (seeded "2024-01-01 00:00:00") [] _ _
           eq_refl eq_refl).
Defined.





(** *** The email stays unique *)

Lemma overwrite_keeps_unique (hit : user -> bool) (body : json)
      (l : list user) :
  NoDup (map email l) ->
  (List.length (filter hit l) <= 1)%nat ->
  (forall u, In u l -> hit u = false -> email u <> bind (get "email" body)) ->
  NoDup (map email
           (map (fun u => if hit u then overwrite body u else u) l)).
Proof.
  induction l as [|x l IH]; intros N L Free; [constructor|].
  cbn [map filter List.length] in *.
  inversion N as [|? ? Hx Hl]; subst.
  destruct (hit x) eqn:Hh.
  - cbn [List.length] in L.
    assert (Z0 : filter hit l = []).
    { destruct (filter hit l); [reflexivity|cbn in L; lia]. }
    assert (Same : map (fun u => if hit u then overwrite body u else u) l = l).
    { rewrite <- (map_id l) at 2. apply map_ext_in. intros u Hu.
      rewrite (UserServiceFacts.filter_nil_none _ _ Z0 u Hu). reflexivity. }
    rewrite Same. constructor; [|exact Hl].
    cbn [overwrite email]. intros I. apply in_map_iff in I.
    destruct I as (u & E & Hu).
    apply (Free u (or_intror Hu)
             (UserServiceFacts.filter_nil_none _ _ Z0 u Hu) E).
  - constructor.
    + intros I. apply in_map_iff in I. destruct I as (y & E & Hy).
      apply in_map_iff in Hy. destruct Hy as (u & <- & Hu).
      destruct (hit u) eqn:Hu'.
      * cbn [overwrite email] in E.
        exact (Free x (or_introl eq_refl) Hh (eq_sym E)).
      * apply Hx. apply in_map_iff. exists u. auto.
    + apply IH; [exact Hl|exact L|].
      intros u Hu. apply Free. now right.
Qed.

(** X21. No route of the User Service, however its run ends, makes two
    users share an email: when the emails of the table are pairwise
    distinct before a request, they are so after it. *)
Theorem routes_keep_emails_unique
        (d : db) (fs : faults) (req : request) (r : response) (d' : db) :
  emails_unique d ->
  app d fs req = (r, d') ->
  emails_unique d'.
Proof.
  intros U H. destruct req as [|p|body|p body|p]; cbn [app] in H.
  - unfold get_users in H. destruct (db_all d fs); inversion H; subst; exact U.
  - unfold get_users_id in H.
    destruct (db_get d fs (JStr p)) as [|[|]]; inversion H; subst; exact U.
  - destruct (post_users_cases body)
      as [F|(n & e & ph & a & Gn & Ge & Gp & Ga & Tn & Te & Tp & Ta)].
    + rewrite (post_users_rejected d fs body F) in H.
      inversion H; subst; exact U.
    + rewrite (post_users_run d fs body n e ph a
                 Gn Ge Gp Ga Tn Te Tp Ta) in H.
      destruct (next_fault fs); [inversion H; subst; exact U|].
      destruct (email_taken e (rows d)) eqn:ET;
        [inversion H; subst; exact U|].
      assert (U' : emails_unique
                     (mk_db (rows d ++ [created d n e ph a])
                        (id (created d n e ph a)) (clock d))).
      { unfold emails_unique in *. cbn [rows]. rewrite map_app.
        apply NoDup_app; [exact U|repeat constructor; intros []|].
        intros x Hx [<-|[]]. apply in_map_iff in Hx.
        destruct Hx as (u & E & Hu).
        exact (email_taken_iff e (rows d) ET u Hu E). }
      destruct (next_fault (tl fs)); inversion H; subst; exact U'.
  - unfold put_users_id, db_run_update in H.
    destruct (next_fault fs); [inversion H; subst; exact U|].
    destruct (filter (fun u => id_matches (JStr p) (id u)) (rows d))
      as [|m ms] eqn:M; [cbn in H; inversion H; subst; exact U|].
    destruct (first_null _); [inversion H; subst; exact U|].
    destruct (email_taken _ _ || _)%bool eqn:C;
      [inversion H; subst; exact U|].
    apply orb_false_iff in C. destruct C as [C1 C2].
    assert (U' : emails_unique
                   (mk_db (map (fun u => if id_matches (JStr p) (id u)
                                         then overwrite body u else u)
                             (rows d)) (seq d) (clock d))).
    { unfold emails_unique. cbn [rows].
      apply overwrite_keeps_unique; [exact U| |].
      - rewrite M. apply Nat.ltb_ge in C2. exact C2.
      - intros u Hu Hh.
        apply (email_taken_iff _ _ C1 u).
        apply filter_In. split; [exact Hu|]. now rewrite Hh. }
    cbn [Nat.eqb List.length] in H.
    destruct (db_get _ _ _); inversion H; subst; exact U'.
  - unfold delete_users_id, db_run_delete in H.
    destruct (next_fault fs); [inversion H; subst; exact U|].
    cbn zeta in H.
    assert (U' : emails_unique
                   (mk_db (filter (fun u => negb (id_matches (JStr p) (id u)))
                             (rows d)) (seq d) (clock d))).
    { unfold emails_unique in *. cbn [rows].
      now apply OrderServiceMore.NoDup_map_filter. }
    destruct (_ =? 0)%nat; inversion H; subst; exact U'.
Qed.

Lemma routes_keep_emails_unique_witness :
  emails_unique
    (snd (app (seeded "2024-01-01 00:00:00") []
            (PUT_users_id "1"
               (JObj [("name", JStr "John"); ("email", JStr "jane@example.com");
                      ("phone", JStr "08"); ("address", JStr "Jl. D")])))).
Proof.
  refine (routes_keep_emails_unique (seeded "2024-01-01 00:00:00") []
            (PUT_users_id "1"
               (JObj [("name", JStr "John"); ("email", JStr "jane@example.com");
                      ("phone", JStr "08"); ("address", JStr "Jl. D")]))
            _ _ _ eq_refl).
  repeat constructor; cbn; intuition discriminate.
Defined.

(** *** Updating a user that exists *)



(** *** Start-up *)

(** X23. Seeding the users at start-up touches only an empty table. A
    table with a row is left as it is; an empty table, when the engine
    does not fail, receives John Doe and Jane Smith under the next two ids
    of the sequence (1 and 2 in a new file); starting again afterwards
    changes nothing. *)
Theorem seed_users_only_into_empty_table :
  (forall d fs, rows d <> [] -> initializeDatabase d fs = d)
  /\ (forall d, rows d = [] ->
        initializeDatabase d []
        = mk_db
            [mk_user (seq d + 1) (JStr "John Doe") (JStr "john@example.com")
               (JStr "081234567890") (JStr "Jl. Sudirman No. 1, Jakarta")
               (clock d);
             mk_user (seq d + 2) (JStr "Jane Smith") (JStr "jane@example.com")
               (JStr "081234567891") (JStr "Jl. Thamrin No. 2, Jakarta")
               (clock d)]
            (seq d + 2) (clock d))
  /\ (forall d fs,
        initializeDatabase (initializeDatabase d []) fs
        = initializeDatabase d [])
  /\ (forall now, initializeDatabase (empty now) [] = seeded now).
Proof.
  assert (A : forall d fs, rows d <> [] -> initializeDatabase d fs = d).
  { intros d fs H. unfold initializeDatabase, seedInitialData.
    destruct (next_fault fs); [reflexivity|].
    destruct (next_fault (tl fs)); [reflexivity|].
    destruct (rows d); [contradiction|reflexivity]. }
  assert (B : forall d, rows d = [] ->
        initializeDatabase d []
        = mk_db
            [mk_user (seq d + 1) (JStr "John Doe") (JStr "john@example.com")
               (JStr "081234567890") (JStr "Jl. Sudirman No. 1, Jakarta")
               (clock d);
             mk_user (seq d + 2) (JStr "Jane Smith") (JStr "jane@example.com")
               (JStr "081234567891") (JStr "Jl. Thamrin No. 2, Jakarta")
               (clock d)]
            (seq d + 2) (clock d)).
  { intros [l s c] H. cbn [rows] in H. subst l.
    unfold initializeDatabase, seedInitialData, initialUsers, next_fault.
    cbn [tl rows List.length Nat.eqb run_each stmt_run].
    unfold db_run_insert, next_fault, email_taken.
    cbn [first_null bind is_null rows seq clock map List.app snd tl existsb].
    rewrite OrderServiceMore.fresh_id_nil.
    cbn [first_null bind is_null rows seq clock map List.app snd id existsb
         email orb].
    change (JSON.eqb (JStr "john@example.com") (JStr "jane@example.com"))
      with false.
    cbn [first_null bind is_null rows seq clock map List.app snd id existsb
         email orb].
    rewrite OrderServiceMore.fresh_id_one.
    replace (s + 1 + 1) with (s + 2) by lia. reflexivity. }
  split; [exact A|]. split; [exact B|]. split.
  - intros d fs. destruct (rows d) as [|r l] eqn:R.
    + apply A. rewrite (B d R). discriminate.
    + rewrite (A d []) by (rewrite R; discriminate).
      apply A. rewrite R. discriminate.
  - intros now. rewrite (B (empty now) eq_refl). reflexivity.
Qed.

End UserServiceMore.

(* ------------------------------------------------------------------ *)
(** ** The gateway on answers that are not errors, and on no answer *)

Module GatewayMore.
Import JSON Http Gateway.

(** X24. When the backend answers a proxied call with a 2xx status, the
    gateway sends the backend body on unchanged, with status 201 on the
    two POST routes and 200 on every other route, whatever 2xx status the
    backend used. *)
Theorem gateway_passes_a_2xx_body_on
        (USER_SERVICE_URL ORDER_SERVICE_URL : string) (net : call -> reply)
        (req : request) (up : response) :
  net (upstream USER_SERVICE_URL ORDER_SERVICE_URL req) = Reply up ->
  validateStatus (status up) = true ->
  app USER_SERVICE_URL ORDER_SERVICE_URL net req
  = mk_response (match method_of req with POST => 201 | _ => 200 end)
      (body up).
Proof.
  intros N V. unfold app. rewrite N. unfold axios. rewrite V.
  destruct req; reflexivity.
Qed.

Lemma gateway_passes_a_2xx_body_on_witness :
  app "http://localhost:3001" "http://localhost:3002"
    (fun _ => Reply (mk_response 204 (success_message "User berhasil dihapus")))
    (DELETE_api_users_id "1")
  = mk_response 200 (success_message "User berhasil dihapus").
Proof.
  exact (gateway_passes_a_2xx_body_on "http://localhost:3001"
           "http://localhost:3002"
           (fun _ => Reply (mk_response 204
                              (success_message "User berhasil dihapus")))
           (DELETE_api_users_id "1")
           (mk_response 204 (success_message "User berhasil dihapus"))
           eq_refl eq_refl).
Defined.

(** X25. When a proxied call gets no answer at all (connection refused,
    reset), every route answers 500, the three that pass a backend status
    on included; the body has success false and carries the message of
    the failure as error. *)
Theorem gateway_unanswered_call_is_500
        (USER_SERVICE_URL ORDER_SERVICE_URL : string) (net : call -> reply)
        (req : request) (m : string) :
  net (upstream USER_SERVICE_URL ORDER_SERVICE_URL req) = NoReply m ->
  status (app USER_SERVICE_URL ORDER_SERVICE_URL net req) = 500
  /\ get "success" (body (app USER_SERVICE_URL ORDER_SERVICE_URL net req))
     = Some (JBool false)
  /\ get "error" (body (app USER_SERVICE_URL ORDER_SERVICE_URL net req))
     = Some (JStr m).
Proof.
  intros N. unfold app. rewrite N.
  destruct req; repeat split; reflexivity.
Qed.

Lemma gateway_unanswered_call_is_500_witness :
  status (app "http://localhost:3001" "http://localhost:3002"
            (fun _ => NoReply "connect ECONNREFUSED")
            (GET_api_orders_id "1")) = 500.
Proof.
  exact (proj1 (gateway_unanswered_call_is_500 "http://localhost:3001"
                  "http://localhost:3002"
                  (fun _ => NoReply "connect ECONNREFUSED")
                  (GET_api_orders_id "1") "connect ECONNREFUSED" eq_refl)).
Defined.

End GatewayMore.

(* ------------------------------------------------------------------ *)
(** ** The three services together *)

Module SystemFacts.
Import JSON Http Sql System JSONFacts.







Lemma order_reads_keep_store (USER_SERVICE_URL : string)
      (req : OrderService.request) (d : OrderService.db)
      (net : string -> reply) (fs : faults) :
  OrderService.reads_only req = true ->
  snd (fst (OrderService.run (OrderService.app USER_SERVICE_URL req) d net fs))
  = d.
Proof.
  intros R.
  destruct (OrderService.run (OrderService.app USER_SERVICE_URL req) d net fs)
    as [[o d'] tr] eqn:H.
  cbn [fst snd].
  destruct req as [q|p|p|b|p b|p]; try discriminate R;
    cbn [OrderService.app] in H.
  - unfold OrderService.get_orders in H.
    OrderServiceFacts.walk H; inversion H; reflexivity.
  - unfold OrderService.get_orders_id in H.
    OrderServiceFacts.walk H; inversion H; reflexivity.
  - unfold OrderService.get_orders_id_with_user in H.
    OrderServiceFacts.walk H; inversion H; reflexivity.
Qed.

(** X29. A GET through the gateway leaves both stores as they were,
    whatever the engines and the backends do: also when a statement
    fails, when a stored items text does not parse and the handler dies,
    and when the call to the User Service fails. *)
Theorem get_through_the_gateway_keeps_the_stores
        (USER_SERVICE_URL : string) (s : state) (ufs ofs : faults)
        (req : Gateway.request) :
  Gateway.method_of req = Gateway.GET ->
  snd (api USER_SERVICE_URL s ufs ofs req) = s.
Proof.
  intros G. destruct s as [ud od].
  assert (K : forall oreq,
             target req = inr oreq -> OrderService.reads_only oreq = true).
  { intros oreq T. destruct req; try discriminate G; cbn [target] in T;
      inversion T; reflexivity. }
  unfold api, backend. cbn [users orders].
  destruct (target req) as [ureq|oreq] eqn:T.
  - destruct req; try discriminate G; cbn [target] in T; inversion T;
      subst ureq; cbn [UserService.app].
    + unfold UserService.get_users. destruct (UserService.db_all ud ufs);
        reflexivity.
    + unfold UserService.get_users_id.
      destruct (UserService.db_get ud ufs _) as [e|[u|]]; reflexivity.
  - pose proof (order_reads_keep_store USER_SERVICE_URL oreq od
                  (UserService.http_get USER_SERVICE_URL ud ufs) ofs
                  (K oreq eq_refl)) as E.
    destruct (OrderService.run _ _ _ _) as [[o d'] tr].
    cbn [fst snd] in E. subst d'. reflexivity.
Qed.

Lemma get_through_the_gateway_keeps_the_stores_witness :
  snd (api "http://localhost:3001"
         (mk_state (UserService.seeded "2024-01-01 00:00:00")
            (OrderService.seeded "2024-01-01 00:00:00"))
         [Some "SQLITE_BUSY"] [None; Some "SQLITE_IOERR"]
         (Gateway.GET_api_orders_id_with_user "1"))
  = mk_state (UserService.seeded "2024-01-01 00:00:00")
      (OrderService.seeded "2024-01-01 00:00:00").
Proof.
  exact (get_through_the_gateway_keeps_the_stores "http://localhost:3001"
           (mk_state (UserService.seeded "2024-01-01 00:00:00")
              (OrderService.seeded "2024-01-01 00:00:00"))
           [Some "SQLITE_BUSY"] [None; Some "SQLITE_IOERR"]
           (Gateway.GET_api_orders_id_with_user "1") eq_refl).
Defined.




End SystemFacts.
